(** * SecureRAG: engagement stage reconciliation and weighted progress

    A shallow embedding of the project-card logic of
    [frontend/src/components/DocumentCard.jsx] (component
    [OngoingProjectCard]): the business-day helper, the weighted progress
    calculation, the stage initialisation and reconciliation effect, and the
    handlers that mutate the checklist and complete a project.

    Conventions of the embedding.
    - A JavaScript [Date] or ISO date string is an instant, a number of
      milliseconds since the epoch ([timestamp]).
    - A JavaScript number is an IEEE 754 binary64 value, represented by the
      rational it denotes ([Q]).  Each arithmetic operation of the source
      is the exact operation followed by [round64], rounding to the nearest
      double with ties to even (53-bit significands, gradual underflow);
      the quantities of this component stay between 0 and 100, so neither
      infinities nor NaN arise.  [Math.round] is [floor (x + 1/2)],
      computed exactly.
    - An object property that may be missing is an [option].
    - A handler is a function from the state of the card at the call to the
      state once the handler has run to completion, together with the
      effects it issued, in order. *)

From Stdlib Require Import ZArith QArith Qround Qpower String List Bool Lia Lqa.
From stdpp Require Import gmap strings list.

Local Open Scope string_scope.
Local Open Scope Z_scope.

(** ** Data model *)

Definition timestamp := Z.

(** A stage of the checklist:
    [{ stage, done, date, isStatic }]; [isStatic] is absent on objects that
    were never tagged. *)
Record Stage := mkStage {
  stage : string;
  done : bool;
  date : option timestamp;
  isStatic : option bool
}.

(** A test item: [{ test, done, date }]. *)
Module TestItem.
Record t := mk {
  test : string;
  done : bool;
  date : option timestamp
}.
End TestItem.

#[global] Instance Stage_eq_dec : EqDecision Stage.
Proof. solve_decision. Defined.

#[global] Instance TestItem_eq_dec : EqDecision TestItem.t.
Proof. solve_decision. Defined.

(** JavaScript truthiness of a possibly missing boolean property. *)
Definition truthy (b : option bool) : bool :=
  match b with
  | Some true => true
  | _ => false
  end.

(** [Array.prototype.includes] on an array of strings. *)
Definition includes (l : list string) (x : string) : bool :=
  existsb (String.eqb x) l.

(** [arr.filter(Boolean)] on the result of a [map] whose callback may
    return [undefined]. *)
Definition filterBoolean {A} (l : list (option A)) : list A := omap id l.

(** [arr.some((x, idx) => f(x, idx))]. *)
Fixpoint some_from {A} (f : A -> nat -> bool) (idx : nat) (l : list A) : bool :=
  match l with
  | [] => false
  | x :: l' => f x idx || some_from f (S idx) l'
  end.

Definition some_idx {A} (f : A -> nat -> bool) (l : list A) : bool :=
  some_from f 0%nat l.

(** [arr.filter((_, i) => i !== index)]. *)
Fixpoint remove_from {A} (index idx : nat) (l : list A) : list A :=
  match l with
  | [] => []
  | x :: l' =>
      if Nat.eqb idx index then remove_from index (S idx) l'
      else x :: remove_from index (S idx) l'
  end.

Definition filter_not_index {A} (index : nat) (l : list A) : list A :=
  remove_from index 0%nat l.

(** *** Double-precision arithmetic *)

(** The nearest integer to [t], ties to the even one. *)
Definition roundHalfEven (t : Q) : Z :=
  let k := Qfloor t in
  match (t - inject_Z k ?= 1 # 2)%Q with
  | Lt => k
  | Gt => k + 1
  | Eq => if Z.even k then k else k + 1
  end.

(** The binary exponent of a positive [x]: [2 ^ binade x <= x < 2 ^ (binade x + 1)]. *)
Definition binade (x : Q) : Z :=
  if Qle_bool 1 x then Z.log2 (Qfloor x) else - Z.log2_up (Qceiling (/ x)).

(** The exponent of the unit in the last place of the doubles around a
    positive [x]: 53 significant bits, and no spacing finer than [2 ^ -1074]. *)
Definition ulpExponent (x : Q) : Z := Z.max (binade x - 52) (-1074).

(** The multiple of [2 ^ q] nearest to [x], ties to the even multiple. *)
Definition roundGrid (q : Z) (x : Q) : Q :=
  (inject_Z (roundHalfEven (x / 2 ^ q)) * 2 ^ q)%Q.

(** The double nearest to [x] (round to nearest, ties to even). *)
Definition round64 (x : Q) : Q :=
  match (x ?= 0)%Q with
  | Eq => 0%Q
  | Gt => Qred (roundGrid (ulpExponent x) x)
  | Lt => Qred (- roundGrid (ulpExponent (- x)) (- x))
  end.

(** JavaScript's [x / y] (for [y] other than zero), [x * y] and [x + y]. *)
Definition fdiv (x y : Q) : Q := round64 (x / y).
Definition fmul (x y : Q) : Q := round64 (x * y).
Definition fadd (x y : Q) : Q := round64 (x + y).

Declare Scope double_scope.
Delimit Scope double_scope with double.
Arguments fdiv (x y)%_double_scope.
Arguments fmul (x y)%_double_scope.
Arguments fadd (x y)%_double_scope.
Number Notation Q of_number to_number (via IQ
  mapping [Qmake => IQmake, Qmult => IQmult, Qdiv => IQdiv,
           Z.pow_pos => IZpow_pos, Z0 => IZ0, Zpos => IZpos, Zneg => IZneg])
  : double_scope.
Infix "+" := fadd : double_scope.
Infix "*" := fmul : double_scope.
Infix "/" := fdiv : double_scope.

(** [Math.round]: the nearest integer, halves towards plus infinity. *)
Definition Math_round (x : Q) : Z := Qfloor (x + (1 # 2)).

(** An integer (a list length) as a number; exact below [2 ^ 53]. *)
Definition ZtoQ (z : Z) : Q := inject_Z z.

Definition len {A} (l : list A) : Z := Z.of_nat (length l).

(** ** Calendar helper *)

Section Calendar.

(** The host's offset of local time from UTC, in milliseconds, at a given
    instant (it may change over the year). *)
Variable tzOffset : timestamp -> Z.

Definition MS_PER_DAY : Z := 86400000.

(** [d.setHours(0, 0, 0, 0)]: a date at local midnight is represented by
    the number of its local calendar day, counted from 1970-01-01. *)
Definition startOfDay (d : timestamp) : Z := (d + tzOffset d) / MS_PER_DAY.

(** [Date.prototype.getDay] of a calendar day: 0 is Sunday, 6 is
    Saturday; 1970-01-01 was a Thursday. *)
Definition getDay (day : Z) : Z := (day + 4) mod 7.

(** date-fns [isWeekend]. *)
Definition isWeekend (day : Z) : bool :=
  (getDay day =? 0) || (getDay day =? 6).

(** date-fns [eachDayOfInterval({ start, end })]: every day from [start]
    to [end], both included, in increasing order. *)
Definition eachDayOfInterval (start end_ : Z) : list Z :=
  map (fun i => start + Z.of_nat i) (seq 0 (Z.to_nat (end_ - start + 1))).

Definition calculateBusinessDays (startDate endDate : option timestamp) : Z :=
  match startDate, endDate with
  | Some s, Some e =>
      let start := startOfDay s in
      let end_ := startOfDay e in
      if end_ <? start then 0
      else
        let days := eachDayOfInterval start end_ in
        let businessDays := List.filter (fun day => negb (isWeekend day)) days in
        len businessDays
  | _, _ => 0
  end.

End Calendar.

(** ** Stage template and weighted progress *)

Definition STATIC_PENTEST_STAGES : list string :=
  [ "Ticket Assigned";
    "Kickoff";
    "Accounts Received";
    "Enumeration";
    "Manual Testing";
    "Automated Testing";
    "Lateral Movement";
    "Exploitation";
    "Known CVE";
    "Compliance";
    "Reporting";
    "Shared report 1on1 to PSM";
    "Uploaded report on Sharepoint";
    "Sent Emails to Stakeholders";
    "Last Jira Ticket Closed" ].

Definition PREPARATION_STAGES : list string :=
  [ "Kickoff"; "Accounts Received" ].

Definition MAIN_TESTING_STAGES : list string :=
  [ "Enumeration"; "Manual Testing"; "Automated Testing";
    "Lateral Movement"; "Exploitation"; "Known CVE"; "Compliance" ].

Definition FINAL_STAGES : list string :=
  [ "Reporting"; "Shared report 1on1 to PSM";
    "Uploaded report on Sharepoint"; "Sent Emails to Stakeholders";
    "Last Jira Ticket Closed" ].

(** [stages.filter(s => group.includes(s.stage) && s.done).length] *)
Definition completedIn (group : list string) (stages : list Stage) : Z :=
  len (List.filter (fun s => includes group (stage s) && done s) stages).

(** [stages.filter(s => group.includes(s.stage)).length] *)
Definition totalIn (group : list string) (stages : list Stage) : Z :=
  len (List.filter (fun s => includes group (stage s)) stages).

(** [total > 0 ? (completed / total * weight) : 0] *)
Definition groupPct (completed total weight : Z) : Q :=
  if 0 <? total then (ZtoQ completed / ZtoQ total * ZtoQ weight)%double else 0%Q.

Definition calculateWeightedProgress (stages : list Stage) : Z :=
  let prepCompleted := completedIn PREPARATION_STAGES stages in
  let prepTotal := totalIn PREPARATION_STAGES stages in
  let mainCompleted := completedIn MAIN_TESTING_STAGES stages in
  let mainTotal := totalIn MAIN_TESTING_STAGES stages in
  let finalCompleted := completedIn FINAL_STAGES stages in
  let finalTotal := totalIn FINAL_STAGES stages in
  let prepPct := groupPct prepCompleted prepTotal 10 in
  let mainPct := groupPct mainCompleted mainTotal 80 in
  let finalPct := groupPct finalCompleted finalTotal 10 in
  Math_round (prepPct + mainPct + finalPct)%double.

(** ** The project card *)

(** The [project] prop, restricted to the properties the card logic reads. *)
Module Project.
Record t := mk {
  id : Z;
  pentest_stages : option (list Stage);
  start_date : option timestamp
}.
End Project.

(** Payload of [updateProject(id, { ... })]: the properties of the object
    literal, in source order. *)
Module Patch.
Inductive field :=
| pentest_stages (v : list Stage)
| progress_percentage (v : Z)
| tests_checklist (v : list TestItem.t)
| status (v : string)
| completed_date (v : option timestamp)
| leave_days (v : Z)
| business_days_worked (v : Z).
End Patch.

(** What a handler does to the outside world. *)
Inductive Effect :=
| updateProject (id : Z) (patch : list Patch.field)
| setTimeout (callback : Effect) (delay : Z)
| onUpdate
| alert (msg : string)
| console_error (msg : string).

(** The value held by [lastProcessedStagesRef]: the text
    [JSON.stringify(stages.map(s => ({stage, done})))], represented by the
    list it serialises (the serialisation of such a list is injective), or
    the literal ['null']. *)
Inductive StagesKey :=
| KeyNull
| KeyJson (entries : list (string * bool)).

#[global] Instance StagesKey_eq_dec : EqDecision StagesKey.
Proof. solve_decision. Defined.

(** Component state: the [useState] cells and the [useRef] cell. *)
Record Card := mkCard {
  pentestStages : list Stage;
  tests : list TestItem.t;
  isSaving : bool;
  leaveDays : Z;
  isCompleted : bool;
  showCompleteModal : bool;
  lastProcessedStagesRef : option StagesKey
}.

Definition setPentestStages (v : list Stage) (c : Card) : Card :=
  mkCard v (tests c) (isSaving c) (leaveDays c) (isCompleted c)
         (showCompleteModal c) (lastProcessedStagesRef c).

Definition setTests (v : list TestItem.t) (c : Card) : Card :=
  mkCard (pentestStages c) v (isSaving c) (leaveDays c) (isCompleted c)
         (showCompleteModal c) (lastProcessedStagesRef c).

Definition setIsSaving (v : bool) (c : Card) : Card :=
  mkCard (pentestStages c) (tests c) v (leaveDays c) (isCompleted c)
         (showCompleteModal c) (lastProcessedStagesRef c).

Definition setIsCompleted (v : bool) (c : Card) : Card :=
  mkCard (pentestStages c) (tests c) (isSaving c) (leaveDays c) v
         (showCompleteModal c) (lastProcessedStagesRef c).

Definition setShowCompleteModal (v : bool) (c : Card) : Card :=
  mkCard (pentestStages c) (tests c) (isSaving c) (leaveDays c)
         (isCompleted c) v (lastProcessedStagesRef c).

Definition setLastProcessedStagesRef (v : option StagesKey) (c : Card) : Card :=
  mkCard (pentestStages c) (tests c) (isSaving c) (leaveDays c)
         (isCompleted c) (showCompleteModal c) v.

(** [{ ...s, isStatic: b }] *)
Definition withIsStatic (b : bool) (s : Stage) : Stage :=
  mkStage (stage s) (done s) (date s) (Some b).

(** [{ stage, done: false, date: null, isStatic: true }] *)
Definition newStaticStage (name : string) : Stage :=
  mkStage name false None (Some true).

(** *** Initial stage view *)

(** [existingMap.set(stage.stage, stage)] *)
Definition setByName (m : gmap string Stage) (s : Stage) : gmap string Stage :=
  <[stage s := s]> m.

(** [existingStages.forEach(stage => existingMap.set(stage.stage, stage))] *)
Definition existingMapOf (existingStages : option (list Stage)) : gmap string Stage :=
  match existingStages with
  | Some l =>
      if 0 <? len l
      then foldl setByName ∅ l
      else ∅
  | None => ∅
  end.

Definition initializePentestStages (existingStages : option (list Stage)) : list Stage :=
  let existingMap := existingMapOf existingStages in
  let staticStages :=
    map (fun name =>
           match existingMap !! name with
           | Some existing => withIsStatic true existing
           | None => newStaticStage name
           end) STATIC_PENTEST_STAGES in
  let customStages :=
    match existingStages with
    | Some l => List.filter (fun s => negb (includes STATIC_PENTEST_STAGES (stage s))) l
    | None => []
    end in
  staticStages ++ customStages.

(** The two parts of the initial view, [staticStages] and [customStages]. *)
Definition initialStaticStages (existingStages : option (list Stage)) : list Stage :=
  map (fun name =>
         match existingMapOf existingStages !! name with
         | Some existing => withIsStatic true existing
         | None => newStaticStage name
         end) STATIC_PENTEST_STAGES.

Definition initialCustomStages (existingStages : option (list Stage)) : list Stage :=
  List.filter (fun s => negb (includes STATIC_PENTEST_STAGES (stage s)))
              (default [] existingStages).

(** *** Reconciliation effect *)

Definition stagesKey (stages : option (list Stage)) : StagesKey :=
  match stages with
  | Some l => KeyJson (map (fun s => (stage s, done s)) l)
  | None => KeyNull
  end.

(** The local variables of the effect, as functions of the persisted list
    [project.pentest_stages]. *)

(** [{ ...stage, isStatic: STATIC_PENTEST_STAGES.includes(stage.stage) }] *)
Definition tagStage (s : Stage) : Stage :=
  withIsStatic (includes STATIC_PENTEST_STAGES (stage s)) s.

Definition existingStagesOf (persisted : list Stage) : list Stage :=
  map tagStage persisted.

Definition staticStagesPresentOf (persisted : list Stage) : list Stage :=
  List.filter (fun s => truthy (isStatic s)) (existingStagesOf persisted).

Definition customStagesOf (persisted : list Stage) : list Stage :=
  List.filter (fun s => negb (truthy (isStatic s))) (existingStagesOf persisted).

Definition reorderedStaticStagesOf (persisted : list Stage) : list Stage :=
  filterBoolean
    (map (fun staticStage =>
            List.find (fun s => String.eqb (stage s) staticStage)
                      (staticStagesPresentOf persisted))
         STATIC_PENTEST_STAGES).

(** [updatedStages]: the candidate view. *)
Definition updatedStagesOf (persisted : list Stage) : list Stage :=
  reorderedStaticStagesOf persisted ++ customStagesOf persisted.

Definition staticStagesInProjectOf (persisted : list Stage) : list string :=
  map stage (List.filter (fun s => includes STATIC_PENTEST_STAGES (stage s)) persisted).

Definition staticStagesInOrderOf (persisted : list Stage) : list string :=
  map stage (reorderedStaticStagesOf persisted).

(** [a.length !== b.length || a.some((stage, idx) => stage !== b[idx])] *)
Definition orderChangedOf (persisted : list Stage) : bool :=
  let a := staticStagesInProjectOf persisted in
  let b := staticStagesInOrderOf persisted in
  negb (len a =? len b)
  || some_idx (fun st idx =>
                 match b !! idx with
                 | Some x => negb (String.eqb st x)
                 | None => true
                 end) a.

(** The progress value the effect attaches to its corrective write:
    [total > 0 ? Math.round((completed / total) * 100) : 0]. *)
Definition reconcileProgress (updatedStages : list Stage) : Z :=
  let completed := len (List.filter done updatedStages) in
  let total := len updatedStages in
  if 0 <? total then Math_round (ZtoQ completed / ZtoQ total * 100)%double else 0.

(** The second [useEffect] of the component, run for the current [project]
    prop.  [JSON.stringify(pentestStages) !== JSON.stringify(updatedStages)]
    is the comparison of the two lists, field by field. *)
Definition reconcileEffect (project : Project.t) (c : Card) : Card * list Effect :=
  let currentStagesKey := stagesKey (Project.pentest_stages project) in
  if bool_decide (lastProcessedStagesRef c = Some currentStagesKey) then (c, [])
  else
    let c := setLastProcessedStagesRef (Some currentStagesKey) c in
    match Project.pentest_stages project with
    | Some persisted =>
        let updatedStages := updatedStagesOf persisted in
        let staticStagesInProject := staticStagesInProjectOf persisted in
        let staticStagesInOrder := staticStagesInOrderOf persisted in
        let orderChanged := orderChangedOf persisted in
        let stagesChanged := negb (bool_decide (pentestStages c = updatedStages)) in
        let c := if stagesChanged then setPentestStages updatedStages c else c in
        if orderChanged && (0 <? len persisted)
           && (len staticStagesInProject =? len staticStagesInOrder)
        then
          let newProgress := reconcileProgress updatedStages in
          (c, [setTimeout
                 (updateProject (Project.id project)
                    [Patch.pentest_stages updatedStages;
                     Patch.progress_percentage newProgress]) 100])
        else (c, [])
    | None =>
        let initialStages := map newStaticStage STATIC_PENTEST_STAGES in
        (setPentestStages initialStages c, [])
    end.

(** The card as first rendered for [project]. *)
Definition mount (project : Project.t) (tests0 : list TestItem.t) (leaveDays0 : Z)
    (completed0 : bool) : Card :=
  mkCard (initializePentestStages (Project.pentest_stages project))
         tests0 false leaveDays0 completed0 false None.

(** Successive runs of the effect, one per [project] prop received. *)
Fixpoint reconcileAll (projects : list Project.t) (c : Card) : Card * list Effect :=
  match projects with
  | [] => (c, [])
  | p :: ps =>
      let '(c1, e1) := reconcileEffect p c in
      let '(c2, e2) := reconcileAll ps c1 in
      (c2, (e1 ++ e2)%list)
  end.

(** *** Handlers *)

(** The progress value computed in line by [handleToggleStage] and
    [handleDeleteStage], with the group names written out as literals. *)
Definition inlineProgress (updatedStages : list Stage) : Z :=
  let prepCompleted := completedIn ["Kickoff"; "Accounts Received"] updatedStages in
  let prepTotal := totalIn ["Kickoff"; "Accounts Received"] updatedStages in
  let mainCompleted :=
    completedIn ["Enumeration"; "Manual Testing"; "Automated Testing";
                 "Lateral Movement"; "Exploitation"; "Known CVE"; "Compliance"]
                updatedStages in
  let mainTotal :=
    totalIn ["Enumeration"; "Manual Testing"; "Automated Testing";
             "Lateral Movement"; "Exploitation"; "Known CVE"; "Compliance"]
            updatedStages in
  let finalCompleted :=
    completedIn ["Reporting"; "Shared report 1on1 to PSM";
                 "Uploaded report on Sharepoint"; "Sent Emails to Stakeholders";
                 "Last Jira Ticket Closed"] updatedStages in
  let finalTotal :=
    totalIn ["Reporting"; "Shared report 1on1 to PSM";
             "Uploaded report on Sharepoint"; "Sent Emails to Stakeholders";
             "Last Jira Ticket Closed"] updatedStages in
  Math_round
    ((if 0 <? prepTotal then ZtoQ prepCompleted / ZtoQ prepTotal * 10 else 0)
     + (if 0 <? mainTotal then ZtoQ mainCompleted / ZtoQ mainTotal * 80 else 0)
     + (if 0 <? finalTotal then ZtoQ finalCompleted / ZtoQ finalTotal * 10 else 0))%double.

Section OngoingProjectCard.

Variable tzOffset : timestamp -> Z.
Variable project : Project.t.

(** The [try { await updateProject(...); onUpdate() } catch { ... }] tail
    shared by the handlers; [resolved] tells whether the request
    succeeded. *)
Definition persist (patch : list Patch.field) (resolved : bool)
    (log msg : string) : list Effect :=
  updateProject (Project.id project) patch
  :: (if resolved then [onUpdate] else [console_error log; alert msg]).

(** [handleToggleStage(index)] at instant [now].  [None] is the
    [TypeError] raised by [updatedStages[index].done] when there is no
    such element. *)
Definition handleToggleStage (index : nat) (now : timestamp) (resolved : bool)
    (c : Card) : option (Card * list Effect) :=
  if isSaving c then Some (c, [])
  else
    match pentestStages c !! index with
    | None => None
    | Some s =>
        let done' := negb (done s) in
        let date' := if done' then Some now else None in
        let updatedStages :=
          <[index := mkStage (stage s) done' date' (isStatic s)]> (pentestStages c) in
        let newProgress := inlineProgress updatedStages in
        Some (setIsSaving false (setPentestStages updatedStages c),
              persist [Patch.pentest_stages updatedStages;
                       Patch.progress_percentage newProgress]
                      resolved "Error updating stage:" "Failed to update stage")
    end.

(** [handleToggleTest(index)] at instant [now]. *)
Definition handleToggleTest (index : nat) (now : timestamp) (resolved : bool)
    (c : Card) : option (Card * list Effect) :=
  if isSaving c then Some (c, [])
  else
    match tests c !! index with
    | None => None
    | Some t =>
        let done' := negb (TestItem.done t) in
        let date' := if done' then Some now else TestItem.date t in
        let updatedTests :=
          <[index := TestItem.mk (TestItem.test t) done' date']> (tests c) in
        Some (setIsSaving false (setTests updatedTests c),
              persist [Patch.tests_checklist updatedTests]
                      resolved "Error updating test:" "Failed to update test")
    end.

(** [handleDeleteStage(index)].  [None] is the [TypeError] raised by
    [pentestStages[index].isStatic] when there is no such element. *)
Definition handleDeleteStage (index : nat) (resolved : bool)
    (c : Card) : option (Card * list Effect) :=
  match pentestStages c !! index with
  | None => None
  | Some s =>
      if truthy (isStatic s)
      then Some (c, [alert "Cannot delete static pentesting stages"])
      else
        let updatedStages := filter_not_index index (pentestStages c) in
        let newProgress := inlineProgress updatedStages in
        Some (setIsSaving false (setPentestStages updatedStages c),
              persist [Patch.pentest_stages updatedStages;
                       Patch.progress_percentage newProgress]
                      resolved "Error deleting stage:" "Failed to delete stage")
  end.

(** [handleCompleteProject()].  The handler reads the clock twice:
    [completedAt] is the reading turned into [completedDate], [now] the
    one passed to [calculateBusinessDays].  [leaveDays || 0] is
    [leaveDays] on integers. *)
Definition handleCompleteProject (completedAt now : timestamp) (resolved : bool)
    (c : Card) : Card * list Effect :=
  if isSaving c then (c, [])
  else
    let completedDate := completedAt in
    let startDate := Project.start_date project in
    let businessDays :=
      match startDate with
      | Some _ => calculateBusinessDays tzOffset startDate (Some now) - leaveDays c
      | None => 0
      end in
    let effects :=
      persist [Patch.status "past";
               Patch.completed_date (Some completedDate);
               Patch.leave_days (leaveDays c);
               Patch.business_days_worked (Z.max 0 businessDays)]
              resolved "Error completing project:" "Failed to complete project" in
    if resolved
    then (setIsSaving false (setShowCompleteModal false (setIsCompleted true c)),
          effects)
    else (setIsSaving false c, effects).

End OngoingProjectCard.

(** The persistence requests among a list of effects, including those
    scheduled through [setTimeout]. *)
Fixpoint writeOf (e : Effect) : option (Z * list Patch.field) :=
  match e with
  | updateProject i p => Some (i, p)
  | setTimeout cb _ => writeOf cb
  | _ => None
  end.

Definition writes (es : list Effect) : list (Z * list Patch.field) :=
  omap writeOf es.

(** The stage lists written by a list of effects. *)
Definition stagesWritten (es : list Effect) : list (list Stage) :=
  omap (fun f => match f with Patch.pentest_stages v => Some v | _ => None end)
       (concat (map snd (writes es))).

(** ** Specification vocabulary *)

(** The static names of a list in template order: the template filtered
    down to the names that occur in the list. *)
Definition templateOrder (names : list string) : list string :=
  List.filter (includes names) STATIC_PENTEST_STAGES.

(** The names of the custom stages of a list, in the order of the list. *)
Definition customNames (names : list string) : list string :=
  List.filter (fun name => negb (includes STATIC_PENTEST_STAGES name)) names.

(** The corrective write of a pass, when there is one. *)
Definition correctiveWrite (project : Project.t) (persisted : list Stage) : Effect :=
  setTimeout
    (updateProject (Project.id project)
       [Patch.pentest_stages (updatedStagesOf persisted);
        Patch.progress_percentage (reconcileProgress (updatedStagesOf persisted))])
    100.

(** ** Sample data *)

(** A host whose local time is UTC. *)
Definition utc : timestamp -> Z := fun _ => 0.

(** Midnight UTC of 2024-01-01 (a Monday) and of the days that follow. *)
Definition monday : timestamp := 1704067200000.
Definition friday : timestamp := monday + 4 * MS_PER_DAY.
Definition saturday : timestamp := monday + 5 * MS_PER_DAY.
Definition sunday : timestamp := monday + 6 * MS_PER_DAY.

(** A stage as the backend returns it, without an [isStatic] tag. *)
Definition persistedStage (name : string) (isDone : bool) : Stage :=
  mkStage name isDone None None.

(** The whole template, with the first [p] Preparation, [m] Main Testing
    and [f] Final stages done. *)
Definition templateWith (p m f : nat) : list Stage :=
  (persistedStage "Ticket Assigned" false
   :: imap (fun i name => persistedStage name (bool_decide (i < p)%nat)) PREPARATION_STAGES
   ++ imap (fun i name => persistedStage name (bool_decide (i < m)%nat)) MAIN_TESTING_STAGES
   ++ imap (fun i name => persistedStage name (bool_decide (i < f)%nat)) FINAL_STAGES)%list.

(** Two Preparation stages stored in the wrong order, then a custom one. *)
Definition swappedStages : list Stage :=
  [ persistedStage "Accounts Received" true;
    persistedStage "Kickoff" false;
    persistedStage "Retest" false ].

Definition swappedProject : Project.t := Project.mk 7 (Some swappedStages) (Some monday).

(** A stage list from which the user removed "Kickoff". *)
Definition withoutKickoff : list Stage :=
  [ persistedStage "Ticket Assigned" true;
    persistedStage "Accounts Received" false;
    persistedStage "Retest" false ].

(** A card that is idle, with one test item completed on the Monday and
    one stage completed on the Monday. *)
Definition doneTestCard : Card :=
  mkCard [mkStage "Kickoff" true (Some monday) (Some true)]
         [TestItem.mk "Port scan" true (Some monday)]
         false 0 false false None.

(** The card of [swappedProject] after its first reconciliation pass. *)
Definition reconciledCard : Card :=
  fst (reconcileEffect swappedProject (mount swappedProject [] 1 false)).

(** ** The rest of the card *)

(** The further properties of the [project] prop that the card reads,
    beside those of [Project.t]. *)
Module ProjectInfo.
Record t := mk {
  core : Project.t;
  end_date : option timestamp;
  completed_date : option timestamp;
  leave_days : option Z;
  business_days_worked : option Z;
  kickoff_status : option string;
  notes : option string;
  tests_checklist : option (list TestItem.t)
}.
End ProjectInfo.

(** [s || d] on a string that may be missing: the empty string is falsy. *)
Definition orString (s : option string) (d : string) : string :=
  match s with
  | Some EmptyString | None => d
  | Some s' => s'
  end.

(** [n || 0] on a number that may be missing. *)
Definition orZero (n : option Z) : Z := default 0 n.

(** [!!d] on a date that may be missing. *)
Definition isPresent {A} (d : option A) : bool :=
  match d with
  | Some _ => true
  | None => false
  end.

Definition setLeaveDays (v : Z) (c : Card) : Card :=
  mkCard (pentestStages c) (tests c) (isSaving c) v (isCompleted c)
         (showCompleteModal c) (lastProcessedStagesRef c).

(** The card with its remaining [useState] cells. *)
Record CardView := mkCardView {
  card : Card;
  notes : string;
  newTest : string;
  newStage : string;
  kickoffStatus : string
}.

Definition setCard (v : Card) (cv : CardView) : CardView :=
  mkCardView v (notes cv) (newTest cv) (newStage cv) (kickoffStatus cv).

Definition setNotes (v : string) (cv : CardView) : CardView :=
  mkCardView (card cv) v (newTest cv) (newStage cv) (kickoffStatus cv).

Definition setNewTest (v : string) (cv : CardView) : CardView :=
  mkCardView (card cv) (notes cv) v (newStage cv) (kickoffStatus cv).

Definition setNewStage (v : string) (cv : CardView) : CardView :=
  mkCardView (card cv) (notes cv) (newTest cv) v (kickoffStatus cv).

Definition setKickoffStatus (v : string) (cv : CardView) : CardView :=
  mkCardView (card cv) (notes cv) (newTest cv) (newStage cv) v.

(** Effects of the handlers of the whole card: those of [Effect], and the
    two requests whose payload is [{ notes }] or [{ kickoff_status }]. *)
Inductive ViewEffect :=
| cardEffect (e : Effect)
| updateProject_notes (id : Z) (notes : string)
| updateProject_kickoff_status (id : Z) (kickoff_status : string).

(** [{ test, done: false, date: null }] *)
Definition newTestItem (text : string) : TestItem.t :=
  TestItem.mk text false None.

(** [{ stage, done: false, date: null, isStatic: false }] *)
Definition newCustomStage (name : string) : Stage :=
  mkStage name false None (Some false).

(** Values derived from the state on each render. *)
Definition progress (c : Card) : Z := calculateWeightedProgress (pentestStages c).

Definition totalStages (c : Card) : Z := len (pentestStages c).

Definition completedStages (c : Card) : Z := len (List.filter done (pentestStages c)).

Definition completedTests (c : Card) : Z := len (List.filter TestItem.done (tests c)).

Definition totalTests (c : Card) : Z := len (tests c).

(** [totalTests > 0 ? (completedTests / totalTests) * 100 : 0] *)
Definition testsProgress (c : Card) : Q :=
  if 0 <? totalTests c
  then (ZtoQ (completedTests c) / ZtoQ (totalTests c) * 100)%double
  else 0%Q.

Section WholeCard.

Variable tzOffset : timestamp -> Z.

(** [String.prototype.trim]. *)
Variable trim : string -> string.

Variable info : ProjectInfo.t.

(** The card as first rendered, with all its cells. *)
Definition mountView : CardView :=
  mkCardView
    (mount (ProjectInfo.core info)
           (default [] (ProjectInfo.tests_checklist info))
           (orZero (ProjectInfo.leave_days info))
           (isPresent (ProjectInfo.completed_date info)))
    (orString (ProjectInfo.notes info) "")
    "" ""
    (orString (ProjectInfo.kickoff_status info) "queued").

(** The first [useEffect]: take the completion state over from the prop. *)
Definition syncEffect (cv : CardView) : CardView :=
  setKickoffStatus (orString (ProjectInfo.kickoff_status info) "queued")
    (setCard (setLeaveDays (orZero (ProjectInfo.leave_days info))
                (setIsCompleted (isPresent (ProjectInfo.completed_date info))
                   (card cv))) cv).

(** [businessDaysRemaining], rendered at instant [now]; [None] is [null]. *)
Definition businessDaysRemaining (now : timestamp) (c : Card) : option Z :=
  match ProjectInfo.end_date info with
  | Some end_date =>
      if negb (isCompleted c)
      then Some (Z.max 0 (calculateBusinessDays tzOffset (Some now) (Some end_date)))
      else None
  | None => None
  end.


(** The [onUpdate()] or [catch] tail of a handler. *)
Definition settle (resolved : bool) (log msg : string) : list Effect :=
  if resolved then [onUpdate] else [console_error log; alert msg].

(** [handleSaveNotes()] *)
Definition handleSaveNotes (resolved : bool) (cv : CardView)
    : CardView * list ViewEffect :=
  (setCard (setIsSaving false (card cv)) cv,
   updateProject_notes (Project.id (ProjectInfo.core info)) (notes cv)
   :: map cardEffect (settle resolved "Error saving notes:" "Failed to save notes")).

(** [handleAddTest()] *)
Definition handleAddTest (resolved : bool) (cv : CardView)
    : CardView * list Effect :=
  if isSaving (card cv) then (cv, [])
  else if String.eqb (trim (newTest cv)) "" then (cv, [])
  else
    let updatedTests := (tests (card cv) ++ [newTestItem (trim (newTest cv))])%list in
    (setCard (setIsSaving false (setTests updatedTests (card cv))) (setNewTest "" cv),
     persist (ProjectInfo.core info) [Patch.tests_checklist updatedTests]
             resolved "Error saving test:" "Failed to save test").

(** [handleDeleteTest(index)] *)
Definition handleDeleteTest (index : nat) (resolved : bool) (c : Card)
    : Card * list Effect :=
  if isSaving c then (c, [])
  else
    let updatedTests := filter_not_index index (tests c) in
    (setIsSaving false (setTests updatedTests c),
     persist (ProjectInfo.core info) [Patch.tests_checklist updatedTests]
             resolved "Error deleting test:" "Failed to delete test").

(** [handleAddStage()] *)
Definition handleAddStage (resolved : bool) (cv : CardView)
    : CardView * list Effect :=
  if isSaving (card cv) then (cv, [])
  else if String.eqb (trim (newStage cv)) "" then (cv, [])
  else
    let updatedStages :=
      (pentestStages (card cv) ++ [newCustomStage (trim (newStage cv))])%list in
    (setCard (setIsSaving false (setPentestStages updatedStages (card cv)))
             (setNewStage "" cv),
     persist (ProjectInfo.core info) [Patch.pentest_stages updatedStages]
             resolved "Error adding stage:" "Failed to add stage").

(** [handleKickoffStatusChange(newStatus)] *)
Definition handleKickoffStatusChange (newStatus : string) (resolved : bool)
    (cv : CardView) : CardView * list ViewEffect :=
  if isSaving (card cv) then (cv, [])
  else
    let request :=
      updateProject_kickoff_status (Project.id (ProjectInfo.core info)) newStatus in
    let effects :=
      request :: map cardEffect
                   (settle resolved "Error updating kickoff status:"
                           "Failed to update kickoff status") in
    let shown :=
      if resolved then newStatus
      else orString (ProjectInfo.kickoff_status info) "queued" in
    (setCard (setIsSaving false (card cv)) (setKickoffStatus shown cv), effects).

(** [handleUncompleteProject()]; [confirmed] is the answer to
    [window.confirm], asked only when the card is not saving. *)
Definition handleUncompleteProject (confirmed resolved : bool) (c : Card)
    : Card * list Effect :=
  if isSaving c then (c, [])
  else if negb confirmed then (c, [])
  else
    let effects :=
      persist (ProjectInfo.core info)
              [Patch.status "ongoing";
               Patch.completed_date None;
               Patch.leave_days 0;
               Patch.business_days_worked 0]
              resolved "Error uncompleting project:" "Failed to update project" in
    if resolved
    then (setIsSaving false (setLeaveDays 0 (setIsCompleted false c)), effects)
    else (setIsSaving false c, effects).

End WholeCard.

(** *** The kickoff status control *)

Module KickoffStatus.

(** An entry of [statusOptions]; [icon] is the name of the imported icon. *)
Record option_ := mkOption {
  value : string;
  label : string;
  icon : string;
  color : string
}.

Definition statusOptions : list option_ :=
  [ mkOption "ticket_assigned" "Ticket Assigned" "FiTag"
             "bg-purple-100 text-purple-800 border-purple-300";
    mkOption "queued" "Meeting Queued" "FiClock"
             "bg-yellow-100 text-yellow-800 border-yellow-300";
    mkOption "in_talks" "In Talks" "FiMessageCircle"
             "bg-blue-100 text-blue-800 border-blue-300";
    mkOption "done" "Done" "FiCheckCircle"
             "bg-green-100 text-green-800 border-green-300" ].

(** [handleStatusChange(newStatus)]: the callback runs unless the control
    is disabled or has no callback; [None] when nothing runs. *)
Definition handleStatusChange {R} (disabled : bool)
    (onStatusChange : option (string -> R)) (newStatus : string) : option R :=
  if negb disabled
  then match onStatusChange with
       | Some callback => Some (callback newStatus)
       | None => None
       end
  else None.

End KickoffStatus.

(** A click on the button of [opt] in the control as the card renders it:
    [disabled={isSaving}], [onStatusChange={handleKickoffStatusChange}]. *)
Definition clickKickoffOption (info : ProjectInfo.t) (opt : KickoffStatus.option_)
    (resolved : bool) (cv : CardView) : CardView * list ViewEffect :=
  default (cv, [])
    (KickoffStatus.handleStatusChange (isSaving (card cv))
       (Some (fun newStatus => handleKickoffStatusChange info newStatus resolved cv))
       (KickoffStatus.value opt)).

(** *** The document card *)

(** The technologies block of [DocumentCard]: nothing when the summary has
    no technology; otherwise the tags shown, [technologies.slice(0, 5)],
    and the count of the [+N] badge, present when there are more than
    five. *)
Definition technologiesBlock (technologies : option (list string))
    : option (list string * option Z) :=
  match technologies with
  | Some l =>
      if 0 <? len l
      then Some (take 5 l, if 5 <? len l then Some (len l - 5) else None)
      else None
  | None => None
  end.

(** *** Further vocabulary *)

(** The completion invariant of a stage and of a test item. *)
Definition stageInvariant (s : Stage) : Prop :=
  done s = false -> date s = None.

Definition isWeighted (name : string) : bool :=
  includes PREPARATION_STAGES name
  || includes MAIN_TESTING_STAGES name
  || includes FINAL_STAGES name.

(** [String.prototype.trim] on text whose white space is ASCII. *)
Definition isSpace (a : Ascii.ascii) : bool :=
  let n := Ascii.nat_of_ascii a in
  (Nat.eqb n 32 || (Nat.leb 9 n && Nat.leb n 13))%nat.

Fixpoint trimStart (s : string) : string :=
  match s with
  | String a s' => if isSpace a then trimStart s' else s
  | EmptyString => EmptyString
  end.

Fixpoint trimEnd (s : string) : string :=
  match s with
  | String a s' =>
      match trimEnd s' with
      | EmptyString => if isSpace a then EmptyString else String a EmptyString
      | rest => String a rest
      end
  | EmptyString => EmptyString
  end.

Definition trimAscii (s : string) : string := trimEnd (trimStart s).

(** A completed project as the backend returns it after [handleCompleteProject]. *)
Definition completedInfo (leave : Z) : ProjectInfo.t :=
  ProjectInfo.mk swappedProject (Some sunday) (Some friday) (Some leave)
                 (Some (Z.max 0 (5 - leave))) (Some "done") None None.

Definition ongoingInfo : ProjectInfo.t :=
  ProjectInfo.mk swappedProject (Some sunday) None None None None None None.

(** The business days among the days [start], ..., [end_]. *)
Definition countBusinessDays (start end_ : Z) : Z :=
  len (List.filter (fun day => negb (isWeekend day)) (eachDayOfInterval start end_)).

(** A whole template stored with its two Preparation stages swapped, both
    of them and the first three Main Testing stages done, then a custom
    stage. *)
Definition reorderedTemplate : list Stage :=
  (persistedStage "Ticket Assigned" false
   :: persistedStage "Accounts Received" true
   :: persistedStage "Kickoff" true
   :: imap (fun i name => persistedStage name (bool_decide (i < 3)%nat)) MAIN_TESTING_STAGES
   ++ map (fun name => persistedStage name false) FINAL_STAGES
   ++ [persistedStage "Retest" false])%list.

Definition reorderedProject : Project.t :=
  Project.mk 9 (Some reorderedTemplate) (Some monday).

(** A view in progress: what is left of the template, a stage the user
    added under the name "Kickoff", and a custom "Retest".  Two of the
    three stages named like a Preparation stage are done, two of the three
    Main Testing stages and one of the four Final stages. *)
Definition partialStages : list Stage :=
  [ mkStage "Kickoff" true (Some monday) (Some true);
    mkStage "Accounts Received" true (Some monday) (Some true);
    mkStage "Enumeration" true (Some monday) (Some true);
    mkStage "Manual Testing" true (Some friday) (Some true);
    mkStage "Automated Testing" false None (Some true);
    mkStage "Reporting" true (Some friday) (Some true);
    mkStage "Shared report 1on1 to PSM" false None (Some true);
    mkStage "Uploaded report on Sharepoint" false None (Some true);
    mkStage "Sent Emails to Stakeholders" false None (Some true);
    mkStage "Kickoff" false None (Some false);
    mkStage "Retest" false None (Some false) ].

Definition partialCard : Card := mkCard partialStages [] false 0 false false None.

(** [count] stages, the first [completed] of them done. *)
Definition stagesDone (completed count : nat) : list Stage :=
  map (fun i => persistedStage "Step" (bool_decide (i < completed)%nat)) (seq 0 count).

(** * Properties *)

(** ** Double-precision arithmetic *)

Lemma roundHalfEven_bounds (t : Q) :
  Qfloor t <= roundHalfEven t <= Qfloor t + 1.
Proof.
  unfold roundHalfEven; cbv zeta.
  destruct (_ ?= _)%Q; [destruct (Z.even _)|..]; lia.
Qed.

Lemma roundHalfEven_monotone (s t : Q) :
  (s <= t)%Q -> roundHalfEven s <= roundHalfEven t.
Proof.
  intros Hst. pose proof (Qfloor_resp_le _ _ Hst) as Hk.
  destruct (Z.eq_dec (Qfloor s) (Qfloor t)) as [E|N].
  - unfold roundHalfEven; cbv zeta. rewrite E.
    destruct (Qcompare_spec (s - inject_Z (Qfloor t)) (1 # 2)),
             (Qcompare_spec (t - inject_Z (Qfloor t)) (1 # 2));
      try destruct (Z.even _); try lia; exfalso; lra.
  - pose proof (roundHalfEven_bounds s); pose proof (roundHalfEven_bounds t); lia.
Qed.

Lemma roundHalfEven_inject (t : Q) (k : Z) :
  (t == inject_Z k)%Q -> roundHalfEven t = k.
Proof.
  intros Ht.
  assert (Hk : roundHalfEven (inject_Z k) = k).
  { unfold roundHalfEven; cbv zeta. rewrite Qfloor_Z.
    destruct (Qcompare_spec (inject_Z k - inject_Z k) (1 # 2)); try reflexivity; exfalso; lra. }
  assert (H1 : roundHalfEven t <= roundHalfEven (inject_Z k))
    by (apply roundHalfEven_monotone; lra).
  assert (H2 : roundHalfEven (inject_Z k) <= roundHalfEven t)
    by (apply roundHalfEven_monotone; lra).
  lia.
Qed.

Lemma two_pow_pos (q : Z) : (0 < 2 ^ q)%Q.
Proof. apply Qpower_0_lt; reflexivity. Qed.

Lemma two_pow_inject (n : Z) : 0 <= n -> (inject_Z (2 ^ n) == 2 ^ n)%Q.
Proof. intros Hn. exact (Zpower_Qpower 2 n Hn). Qed.

Lemma binade_spec (x : Q) :
  (0 < x)%Q -> (2 ^ binade x <= x)%Q /\ (x < 2 ^ (binade x + 1))%Q.
Proof.
  intros Hx. unfold binade.
  destruct (Qle_bool 1 x) eqn:Hle.
  - apply Qle_bool_iff in Hle.
    assert (Hn : 1 <= Qfloor x) by (apply (Qfloor_resp_le 1 x Hle)).
    destruct (Z.log2_spec (Qfloor x)) as [Hlo Hhi]; [lia|].
    pose proof (Z.log2_nonneg (Qfloor x)) as Hl.
    split.
    + rewrite <- two_pow_inject by exact Hl.
      apply Qle_trans with (inject_Z (Qfloor x)); [|apply Qfloor_le].
      rewrite <- Zle_Qle. exact Hlo.
    + rewrite <- two_pow_inject by lia.
      apply Qlt_le_trans with (inject_Z (Qfloor x + 1)); [apply Qlt_floor|].
      rewrite <- Zle_Qle. unfold Z.succ in Hhi. lia.
  - assert (Hlt : (x < 1)%Q).
    { apply Qnot_le_lt. intros H. apply Qle_bool_iff in H. congruence. }
    assert (Hinv : (1 < / x)%Q).
    { apply Qlt_shift_inv_l; [exact Hx|]. lra. }
    assert (Hxx : (x * / x == 1)%Q) by (apply Qmult_inv_r; lra).
    set (c := Qceiling (/ x)).
    assert (Hc1 : (/ x <= inject_Z c)%Q) by apply Qle_ceiling.
    assert (Hc2 : (inject_Z (c - 1) < / x)%Q) by apply Qceiling_lt.
    assert (Hc : 1 < c).
    { rewrite Zlt_Qlt. apply Qlt_le_trans with (/ x)%Q; assumption. }
    destruct (Z.log2_up_spec c Hc) as [Hlo Hhi].
    assert (Hu : 0 < Z.log2_up c) by (apply Z.log2_up_pos; exact Hc).
    set (u := Z.log2_up c) in *.
    split.
    + rewrite Qpower_opp.
      apply Qle_shift_inv_r; [apply two_pow_pos|].
      rewrite <- two_pow_inject by lia.
      rewrite Zle_Qle in Hhi.
      assert (H : (x * / x <= x * inject_Z (2 ^ u))%Q).
      { apply Qmult_le_l; [exact Hx|]. lra. }
      lra.
    + replace (- u + 1) with (- (u - 1)) by lia.
      rewrite Qpower_opp.
      apply Qlt_shift_inv_l; [apply two_pow_pos|].
      rewrite <- two_pow_inject by lia.
      assert (Hp : 2 ^ (u - 1) <= c - 1).
      { replace (u - 1) with (Z.pred u) by lia. lia. }
      rewrite Zle_Qle in Hp.
      assert (H : (x * inject_Z (2 ^ (u - 1)) < x * / x)%Q).
      { apply Qmult_lt_l; [exact Hx|]. lra. }
      lra.
Qed.

Lemma binade_monotone (x y : Q) :
  (0 < x)%Q -> (x <= y)%Q -> binade x <= binade y.
Proof.
  intros Hx Hxy.
  destruct (binade_spec x Hx) as [Hlo _].
  destruct (binade_spec y) as [_ Hhi]; [lra|].
  assert (H : (2 ^ binade x < 2 ^ (binade y + 1))%Q) by lra.
  apply Qpower_lt_compat_l_inv in H; [lia | reflexivity].
Qed.

Lemma roundGrid_monotone (q : Z) (x y : Q) :
  (x <= y)%Q -> (roundGrid q x <= roundGrid q y)%Q.
Proof.
  intros Hxy. unfold roundGrid.
  pose proof (two_pow_pos q) as Hq.
  apply Qmult_le_compat_r; [|lra].
  rewrite <- Zle_Qle. apply roundHalfEven_monotone.
  unfold Qdiv. apply Qmult_le_compat_r; [exact Hxy|].
  apply Qlt_le_weak, Qinv_lt_0_compat, Hq.
Qed.

Lemma roundGrid_pow (q b : Z) :
  q <= b -> (roundGrid q (2 ^ b) == 2 ^ b)%Q.
Proof.
  intros Hqb. unfold roundGrid.
  assert (Hne : ~ (2 == 0)%Q) by discriminate.
  rewrite (roundHalfEven_inject _ (2 ^ (b - q))).
  - rewrite two_pow_inject by lia.
    rewrite <- Qpower_plus by exact Hne.
    replace (b - q + q) with b by lia. reflexivity.
  - rewrite two_pow_inject by lia.
    rewrite Qpower_minus by exact Hne. reflexivity.
Qed.

Lemma roundGrid_nonneg (q : Z) (x : Q) :
  (0 <= x)%Q -> (0 <= roundGrid q x)%Q.
Proof.
  intros Hx.
  apply Qle_trans with (roundGrid q 0); [|apply roundGrid_monotone, Hx].
  unfold roundGrid.
  rewrite (roundHalfEven_inject _ 0).
  - rewrite Qmult_0_l. apply Qle_refl.
  - unfold Qdiv. rewrite Qmult_0_l. reflexivity.
Qed.

Lemma round64_positive (x : Q) :
  (0 < x)%Q -> (round64 x == roundGrid (ulpExponent x) x)%Q.
Proof.
  intros Hx. unfold round64.
  destruct (Qcompare_spec x 0); [lra| lra |apply Qred_correct].
Qed.

Lemma round64_nonneg (x : Q) : (0 <= x)%Q -> (0 <= round64 x)%Q.
Proof.
  intros Hx. destruct (Qlt_le_dec 0 x) as [Hpos|Hle].
  - rewrite round64_positive by exact Hpos. apply roundGrid_nonneg, Hx.
  - unfold round64. destruct (Qcompare_spec x 0); [lra|lra|lra].
Qed.

Lemma round64_monotone (x y : Q) :
  (0 <= x)%Q -> (x <= y)%Q -> (round64 x <= round64 y)%Q.
Proof.
  intros Hx Hxy.
  destruct (Qlt_le_dec 0 x) as [Hpos|Hle].
  - assert (Hy : (0 < y)%Q) by lra.
    rewrite (round64_positive x Hpos), (round64_positive y Hy).
    pose proof (binade_monotone x y Hpos Hxy) as Hb.
    destruct (Z.eq_dec (ulpExponent x) (ulpExponent y)) as [E|N].
    + rewrite E. apply roundGrid_monotone, Hxy.
    + assert (Hq : ulpExponent x < ulpExponent y /\ ulpExponent x <= binade y
                   /\ ulpExponent y <= binade y /\ binade x + 1 <= binade y).
      { unfold ulpExponent in *. lia. }
      destruct Hq as (_ & Hqx & Hqy & Hbb).
      destruct (binade_spec x Hpos) as [_ Hhi].
      destruct (binade_spec y Hy) as [Hlo _].
      assert (Hpow : (2 ^ (binade x + 1) <= 2 ^ binade y)%Q)
        by (apply Qpower_le_compat_l; [exact Hbb | discriminate]).
      apply Qle_trans with (roundGrid (ulpExponent x) (2 ^ binade y)).
      { apply roundGrid_monotone. lra. }
      rewrite (roundGrid_pow _ _ Hqx), <- (roundGrid_pow _ _ Hqy).
      apply roundGrid_monotone, Hlo.
  - assert (E : round64 x = 0%Q).
    { unfold round64. destruct (Qcompare_spec x 0); [reflexivity|lra|lra]. }
    rewrite E. apply round64_nonneg. lra.
Qed.

(** The operations on familiar values: [1 / 3]; [0.1 + 0.2], which is
    0.30000000000000004; [23 / 40 * 100], which is 57.49999999999999; and
    the integer [2 ^ 53 + 1], which is not a double. *)
Example double_samples :
  (1 / 3)%double = (6004799503160661 # 18014398509481984)%Q
  /\ (1 / 10 + 2 / 10)%double = (1351079888211149 # 4503599627370496)%Q
  /\ (23 / 40 * 100)%double = (8092405580431359 # 140737488355328)%Q
  /\ round64 9007199254740993 = 9007199254740992%Q.
Proof. vm_compute. by repeat split. Qed.

(** A double operation whose exact result lies between 0 and a double [c]
    returns a value between 0 and [c]. *)
Lemma round64_bounds (x c : Q) :
  (0 <= x)%Q -> (x <= c)%Q -> round64 c = c ->
  (0 <= round64 x)%Q /\ (round64 x <= c)%Q.
Proof.
  intros H0 Hc Hexact. split; [by apply round64_nonneg|].
  rewrite <- Hexact. by apply round64_monotone.
Qed.

Lemma fdiv_unit (a b : Q) :
  (0 <= a)%Q -> (a <= b)%Q -> (0 < b)%Q -> (0 <= fdiv a b)%Q /\ (fdiv a b <= 1)%Q.
Proof.
  intros Ha Hab Hb. unfold fdiv.
  apply round64_bounds; [| |by vm_compute].
  - apply Qle_shift_div_l; [done|]. lra.
  - apply Qle_shift_div_r; [done|]. lra.
Qed.

Lemma fdiv_monotone (a a' b : Q) :
  (0 <= a)%Q -> (a <= a')%Q -> (0 < b)%Q -> (fdiv a b <= fdiv a' b)%Q.
Proof.
  intros Ha Haa Hb. unfold fdiv. apply round64_monotone.
  - apply Qle_shift_div_l; [done|]. lra.
  - unfold Qdiv. apply Qmult_le_compat_r; [done|].
    by apply Qlt_le_weak, Qinv_lt_0_compat.
Qed.

Lemma fmul_bounds (r w : Q) :
  (0 <= r)%Q -> (r <= 1)%Q -> (0 <= w)%Q -> round64 w = w ->
  (0 <= fmul r w)%Q /\ (fmul r w <= w)%Q.
Proof.
  intros Hr0 Hr1 Hw Hexact. unfold fmul.
  apply round64_bounds; [| |done].
  - by apply Qmult_le_0_compat.
  - apply Qle_trans with (1 * w)%Q; [by apply Qmult_le_compat_r|]. lra.
Qed.

Lemma fmul_monotone (r r' w : Q) :
  (0 <= r)%Q -> (r <= r')%Q -> (0 <= w)%Q -> (fmul r w <= fmul r' w)%Q.
Proof.
  intros Hr Hrr Hw. unfold fmul. apply round64_monotone.
  - by apply Qmult_le_0_compat.
  - by apply Qmult_le_compat_r.
Qed.

Lemma fadd_bounds (a b ca cb : Q) :
  (0 <= a)%Q -> (a <= ca)%Q -> (0 <= b)%Q -> (b <= cb)%Q ->
  round64 (ca + cb) = (ca + cb)%Q ->
  (0 <= fadd a b)%Q /\ (fadd a b <= ca + cb)%Q.
Proof.
  intros Ha0 Ha Hb0 Hb Hexact. unfold fadd.
  apply round64_bounds; [lra|lra|done].
Qed.

Lemma fadd_monotone (a a' b b' : Q) :
  (0 <= a)%Q -> (a <= a')%Q -> (0 <= b)%Q -> (b <= b')%Q ->
  (fadd a b <= fadd a' b')%Q.
Proof.
  intros Ha Haa Hb Hbb. unfold fadd. apply round64_monotone; lra.
Qed.

Lemma ZtoQ_le (a b : Z) : a <= b -> (ZtoQ a <= ZtoQ b)%Q.
Proof. intros Hab. unfold ZtoQ. by rewrite <- Zle_Qle. Qed.

Lemma ZtoQ_pos (a : Z) : 0 < a -> (0 < ZtoQ a)%Q.
Proof. intros Ha. unfold ZtoQ. change 0%Q with (inject_Z 0). by rewrite <- Zlt_Qlt. Qed.

Lemma ZtoQ_nonneg (a : Z) : 0 <= a -> (0 <= ZtoQ a)%Q.
Proof. apply (ZtoQ_le 0). Qed.

(** From here on the rounding operator is used through the lemmas above. *)
Opaque round64.


(** ** Calendar helper *)

Lemma getDay_range (day : Z) : 0 <= getDay day < 7.
Proof. unfold getDay. apply Z.mod_pos_bound. lia. Qed.

Lemma isWeekend_false (day : Z) :
  isWeekend day = false <-> 1 <= getDay day <= 5.
Proof.
  unfold isWeekend. pose proof (getDay_range day) as Hr.
  rewrite orb_false_iff, !Z.eqb_neq. lia.
Qed.

Lemma elem_of_eachDayOfInterval (start end_ d : Z) :
  d ∈ eachDayOfInterval start end_ <-> start <= d <= end_.
Proof.
  unfold eachDayOfInterval. rewrite list_elem_of_fmap. split.
  - intros (i & -> & Hi). apply elem_of_seq in Hi. lia.
  - intros Hd. exists (Z.to_nat (d - start)). split; [lia|].
    apply elem_of_seq. lia.
Qed.

Lemma NoDup_eachDayOfInterval (start end_ : Z) :
  NoDup (eachDayOfInterval start end_).
Proof.
  unfold eachDayOfInterval. apply NoDup_fmap_2; [|apply NoDup_seq].
  intros i j Hij. lia.
Qed.

Lemma NoDup_List_filter {A} (f : A -> bool) (l : list A) :
  NoDup l -> NoDup (List.filter f l).
Proof. rewrite !NoDup_ListNoDup. apply List.NoDup_filter. Qed.

Lemma elem_of_List_filter {A} (f : A -> bool) (l : list A) (x : A) :
  x ∈ List.filter f l <-> x ∈ l /\ f x = true.
Proof. rewrite !list_elem_of_In. apply List.filter_In. Qed.

Lemma getDay_shift (start k : Z) :
  getDay (start + k) = (getDay start + k) mod 7.
Proof. unfold getDay. rewrite Zplus_mod_idemp_l. f_equal. lia. Qed.

Lemma businessDays_monday_to_friday (tzOffset : timestamp -> Z) (s e : timestamp) :
  getDay (startOfDay tzOffset s) = 1 ->
  startOfDay tzOffset e = startOfDay tzOffset s + 4 ->
  calculateBusinessDays tzOffset (Some s) (Some e) = 5.
Proof.
  unfold calculateBusinessDays. intros Hmon ->.
  set (start := startOfDay tzOffset s) in *.
  replace (start + 4 <? start) with false by (symmetry; apply Z.ltb_ge; lia).
  unfold eachDayOfInterval. replace (start + 4 - start + 1) with 5 by lia.
  change (Z.to_nat 5) with 5%nat.
  cbn [seq map List.filter]. unfold isWeekend.
  rewrite !getDay_shift, Hmon. reflexivity.
Qed.

Lemma businessDays_saturday_to_sunday (tzOffset : timestamp -> Z) (s e : timestamp) :
  getDay (startOfDay tzOffset s) = 6 ->
  startOfDay tzOffset e = startOfDay tzOffset s + 1 ->
  calculateBusinessDays tzOffset (Some s) (Some e) = 0.
Proof.
  unfold calculateBusinessDays. intros Hsat ->.
  set (start := startOfDay tzOffset s) in *.
  replace (start + 1 <? start) with false by (symmetry; apply Z.ltb_ge; lia).
  unfold eachDayOfInterval. replace (start + 1 - start + 1) with 2 by lia.
  change (Z.to_nat 2) with 2%nat.
  cbn [seq map List.filter]. unfold isWeekend.
  rewrite !getDay_shift, Hsat. reflexivity.
Qed.

(** C8. [calculateBusinessDays] returns 0 when the start day is after the
    end day, and otherwise the number of days of the closed interval from
    the start day to the end day (both at local midnight) whose weekday is
    Monday to Friday: the result is the length of a duplicate-free list
    holding exactly those days.  From a Monday to the Friday of the same
    week it is 5; from a Saturday to the next day it is 0. *)
Theorem calculateBusinessDays_closed_interval
    (tzOffset : timestamp -> Z) (s e : timestamp) :
  (startOfDay tzOffset e < startOfDay tzOffset s ->
   calculateBusinessDays tzOffset (Some s) (Some e) = 0)
  /\ (startOfDay tzOffset s <= startOfDay tzOffset e ->
      exists businessDays : list Z,
        NoDup businessDays
        /\ (forall d, d ∈ businessDays <->
                      startOfDay tzOffset s <= d <= startOfDay tzOffset e
                      /\ 1 <= getDay d <= 5)
        /\ calculateBusinessDays tzOffset (Some s) (Some e) = len businessDays)
  /\ (getDay (startOfDay tzOffset s) = 1 ->
      startOfDay tzOffset e = startOfDay tzOffset s + 4 ->
      calculateBusinessDays tzOffset (Some s) (Some e) = 5)
  /\ (getDay (startOfDay tzOffset s) = 6 ->
      startOfDay tzOffset e = startOfDay tzOffset s + 1 ->
      calculateBusinessDays tzOffset (Some s) (Some e) = 0).
Proof.
  unfold calculateBusinessDays.
  set (start := startOfDay tzOffset s). set (end_ := startOfDay tzOffset e).
  repeat split.
  - intros Hlt. apply Z.ltb_lt in Hlt. by rewrite Hlt.
  - intros Hle. apply Z.ltb_ge in Hle. rewrite Hle.
    eexists. split; [|split; [|reflexivity]].
    + apply NoDup_List_filter, NoDup_eachDayOfInterval.
    + intros d. rewrite elem_of_List_filter, elem_of_eachDayOfInterval.
      rewrite negb_true_iff, isWeekend_false. tauto.
  - apply businessDays_monday_to_friday.
  - apply businessDays_saturday_to_sunday.
Qed.

Lemma calculateBusinessDays_closed_interval_witness :
  calculateBusinessDays utc (Some friday) (Some monday) = 0
  /\ (exists businessDays : list Z,
        NoDup businessDays
        /\ (forall d, d ∈ businessDays <->
                      startOfDay utc monday <= d <= startOfDay utc sunday
                      /\ 1 <= getDay d <= 5)
        /\ calculateBusinessDays utc (Some monday) (Some sunday) = len businessDays)
  /\ calculateBusinessDays utc (Some monday) (Some friday) = 5
  /\ calculateBusinessDays utc (Some saturday) (Some sunday) = 0.
Proof.
  split; [|split; [|split]].
  - apply (proj1 (calculateBusinessDays_closed_interval utc friday monday)).
    reflexivity.
  - apply (proj1 (proj2 (calculateBusinessDays_closed_interval utc monday sunday))).
    discriminate.
  - apply (proj1 (proj2 (proj2
      (calculateBusinessDays_closed_interval utc monday friday)))); reflexivity.
  - apply (proj2 (proj2 (proj2
      (calculateBusinessDays_closed_interval utc saturday sunday)))); reflexivity.
Defined.

Example businessDays_whole_week :
  calculateBusinessDays utc (Some monday) (Some sunday) = 5.
Proof. reflexivity. Qed.

Example businessDays_same_day_later_hour :
  calculateBusinessDays utc (Some (monday + 61200000)) (Some (monday + 32400000)) = 1.
Proof. reflexivity. Qed.

Example businessDays_missing_date :
  calculateBusinessDays utc None (Some friday) = 0.
Proof. reflexivity. Qed.

(** ** Weighted progress *)

Lemma includes_elem_of (l : list string) (x : string) :
  includes l x = true <-> x ∈ l.
Proof.
  unfold includes. rewrite existsb_exists, list_elem_of_In. split.
  - intros (y & Hy & Heq). apply String.eqb_eq in Heq. by subst.
  - intros Hx. exists x. split; [done|]. apply String.eqb_refl.
Qed.

Lemma includes_not_elem_of (l : list string) (x : string) :
  includes l x = false <-> x ∉ l.
Proof. by rewrite <- includes_elem_of, not_true_iff_false. Qed.

Lemma List_filter_map {A B} (f : B -> bool) (g : A -> B) (l : list A) :
  List.filter f (map g l) = map g (List.filter (fun x => f (g x)) l).
Proof.
  induction l as [|x l IH]; [done|]. cbn. rewrite IH. by destruct (f (g x)).
Qed.

Lemma List_filter_filter_sub {A} (f g : A -> bool) (l : list A) :
  (forall x, f x = true -> g x = true) ->
  List.filter f (List.filter g l) = List.filter f l.
Proof.
  intros Hfg. induction l as [|x l IH]; [done|].
  cbn [List.filter]. destruct (g x) eqn:Hg; cbn [List.filter].
  - by rewrite IH.
  - destruct (f x) eqn:Hf; [|done]. apply Hfg in Hf. congruence.
Qed.

(** A list in which no static name is repeated repeats no name of a group
    of static names. *)
Lemma NoDup_group_names (group : list string) (stages : list Stage) :
  group ⊆ STATIC_PENTEST_STAGES ->
  NoDup (staticStagesInProjectOf stages) ->
  NoDup (List.filter (includes group) (map stage stages)).
Proof.
  intros Hsub Hn. unfold staticStagesInProjectOf in Hn.
  rewrite <- (List_filter_map (includes STATIC_PENTEST_STAGES) stage) in Hn.
  rewrite <- (List_filter_filter_sub (includes group) (includes STATIC_PENTEST_STAGES)).
  - by apply NoDup_List_filter.
  - intros x. rewrite !includes_elem_of. apply Hsub.
Qed.

(** A group whose names all occur in a list that repeats none of them is
    counted in full. *)
Lemma totalIn_covered (group : list string) (stages : list Stage) :
  NoDup group ->
  NoDup (List.filter (includes group) (map stage stages)) ->
  group ⊆ map stage stages ->
  totalIn group stages = len group.
Proof.
  intros Hg Hn Hsub. unfold totalIn, len. f_equal.
  rewrite <- (length_map stage), <- List_filter_map.
  apply Permutation_length, NoDup_Permutation; [done|done|].
  intros n. rewrite elem_of_List_filter, includes_elem_of. split; [tauto|]. auto.
Qed.

Lemma List_filter_length_sub {A} (f g : A -> bool) (l : list A) :
  (forall x, f x = true -> g x = true) ->
  (length (List.filter f l) <= length (List.filter g l))%nat.
Proof.
  intros Hfg. rewrite <- (List_filter_filter_sub f g l Hfg).
  apply List.filter_length_le.
Qed.

Lemma completedIn_le_totalIn (group : list string) (stages : list Stage) :
  0 <= completedIn group stages <= totalIn group stages.
Proof.
  unfold completedIn, totalIn, len. split; [lia|].
  apply inj_le, List_filter_length_sub. intros s Hs.
  by apply andb_true_iff in Hs as [? _].
Qed.

(** On the group sizes of the template, 2, 7 and 5, the double computation
    rounds to the same integer as the exact formula, for every count of
    done stages. *)
Lemma weighted_formula_double (p m f : Z) :
  0 <= p <= 2 -> 0 <= m <= 7 -> 0 <= f <= 5 ->
  Math_round (groupPct p 2 10 + groupPct m 7 80 + groupPct f 5 10)%double
  = Math_round (ZtoQ p / 2 * 10 + ZtoQ m / 7 * 80 + ZtoQ f / 5 * 10)%Q.
Proof.
  intros Hp Hm Hf.
  assert (Hp' : p = 0 \/ p = 1 \/ p = 2) by lia.
  assert (Hm' : m = 0 \/ m = 1 \/ m = 2 \/ m = 3 \/ m = 4 \/ m = 5 \/ m = 6 \/ m = 7) by lia.
  assert (Hf' : f = 0 \/ f = 1 \/ f = 2 \/ f = 3 \/ f = 4 \/ f = 5) by lia.
  clear Hp Hm Hf.
  destruct Hp' as [->|[->| ->]];
    destruct Hm' as [->|[->|[->|[->|[->|[->|[->| ->]]]]]]];
    destruct Hf' as [->|[->|[->|[->|[->| ->]]]]];
    vm_compute; reflexivity.
Qed.

Lemma inlineProgress_eq (stages : list Stage) :
  inlineProgress stages = calculateWeightedProgress stages.
Proof.
  unfold inlineProgress, calculateWeightedProgress, groupPct,
    PREPARATION_STAGES, MAIN_TESTING_STAGES, FINAL_STAGES.
  reflexivity.
Qed.

Example weighted_all_done : calculateWeightedProgress (templateWith 2 7 5) = 100.
Proof. vm_compute. reflexivity. Qed.

Example weighted_one_preparation : calculateWeightedProgress (templateWith 1 0 0) = 5.
Proof. vm_compute. reflexivity. Qed.

Example weighted_three_main : calculateWeightedProgress (templateWith 0 3 0) = 34.
Proof. vm_compute. reflexivity. Qed.

Example weighted_custom_only :
  calculateWeightedProgress [persistedStage "Retest" true] = 0.
Proof. vm_compute. reflexivity. Qed.

Example weighted_ticket_assigned_ignored :
  calculateWeightedProgress (persistedStage "Ticket Assigned" true :: templateWith 0 0 0) = 0.
Proof. vm_compute. reflexivity. Qed.

(** Where double arithmetic shows: with two of three, two of three and one
    of four stages done the exact sum of the shares is 62.5, which would
    round to 63; the doubles add up to just below it. *)
Example weighted_repeated_name :
  calculateWeightedProgress partialStages = 62
  /\ Math_round (2 / 3 * 10 + 2 / 3 * 80 + 1 / 4 * 10)%Q = 63.
Proof. vm_compute. by split. Qed.

(** C2. On a stage list that repeats no static name and holds the two
    Preparation, seven Main Testing and five Final stages, with [p], [m]
    and [f] of them done, the weighted progress is
    [round (p/2*10 + m/7*80 + f/5*10)]; it is 100 for (2,7,5), 5 for
    (1,0,0) and 34 for (0,3,0). *)
Theorem calculateWeightedProgress_full_template (stages : list Stage) (p m f : Z) :
  NoDup (staticStagesInProjectOf stages) ->
  (PREPARATION_STAGES ++ MAIN_TESTING_STAGES ++ FINAL_STAGES)%list ⊆ map stage stages ->
  completedIn PREPARATION_STAGES stages = p ->
  completedIn MAIN_TESTING_STAGES stages = m ->
  completedIn FINAL_STAGES stages = f ->
  calculateWeightedProgress stages
  = Math_round (ZtoQ p / 2 * 10 + ZtoQ m / 7 * 80 + ZtoQ f / 5 * 10)%Q
  /\ (p = 2 -> m = 7 -> f = 5 -> calculateWeightedProgress stages = 100)
  /\ (p = 1 -> m = 0 -> f = 0 -> calculateWeightedProgress stages = 5)
  /\ (p = 0 -> m = 3 -> f = 0 -> calculateWeightedProgress stages = 34).
Proof.
  intros Hn Hsub Hp Hm Hf.
  assert (Hform : calculateWeightedProgress stages
                  = Math_round (ZtoQ p / 2 * 10 + ZtoQ m / 7 * 80 + ZtoQ f / 5 * 10)%Q).
  { assert (Htotal : totalIn PREPARATION_STAGES stages = 2
                     /\ totalIn MAIN_TESTING_STAGES stages = 7
                     /\ totalIn FINAL_STAGES stages = 5).
    { rewrite !totalIn_covered;
        solve [ by repeat split
              | apply (bool_decide_unpack _); vm_compute; exact I
              | apply NoDup_group_names; [|assumption];
                apply (bool_decide_unpack _); vm_compute; exact I
              | intros n Hin; apply Hsub; rewrite !elem_of_app; auto ]. }
    destruct Htotal as (Htp & Htm & Htf).
    pose proof (completedIn_le_totalIn PREPARATION_STAGES stages) as Hbp.
    pose proof (completedIn_le_totalIn MAIN_TESTING_STAGES stages) as Hbm.
    pose proof (completedIn_le_totalIn FINAL_STAGES stages) as Hbf.
    rewrite Hp, Htp in Hbp. rewrite Hm, Htm in Hbm. rewrite Hf, Htf in Hbf.
    unfold calculateWeightedProgress. cbv zeta.
    rewrite Hp, Hm, Hf, Htp, Htm, Htf.
    by apply weighted_formula_double. }
  split; [exact Hform|].
  repeat split; intros -> -> ->; rewrite Hform; reflexivity.
Qed.

Lemma calculateWeightedProgress_full_template_witness :
  calculateWeightedProgress (templateWith 0 3 0) = 34.
Proof.
  assert (Hn : NoDup (staticStagesInProjectOf (templateWith 0 3 0)))
    by (apply (bool_decide_unpack _); vm_compute; exact I).
  assert (Hsub : (PREPARATION_STAGES ++ MAIN_TESTING_STAGES ++ FINAL_STAGES)%list
                 ⊆ map stage (templateWith 0 3 0))
    by (apply (bool_decide_unpack _); vm_compute; exact I).
  apply (proj2 (proj2 (proj2
    (calculateWeightedProgress_full_template (templateWith 0 3 0) 0 3 0
       Hn Hsub eq_refl eq_refl eq_refl))));
    reflexivity.
Defined.

(** ** Reconciliation *)

Example updatedStagesOf_swapped :
  updatedStagesOf swappedStages
  = [ mkStage "Kickoff" false None (Some true);
      mkStage "Accounts Received" true None (Some true);
      mkStage "Retest" false None (Some false) ].
Proof. reflexivity. Qed.

Example updatedStagesOf_empty : updatedStagesOf [] = [].
Proof. reflexivity. Qed.

Lemma NoDup_STATIC_PENTEST_STAGES : NoDup STATIC_PENTEST_STAGES.
Proof. apply (bool_decide_unpack _). vm_compute. exact I. Qed.

Lemma stage_tagStage (s : Stage) : stage (tagStage s) = stage s.
Proof. reflexivity. Qed.

Lemma map_stage_tagStage (l : list Stage) : map stage (map tagStage l) = map stage l.
Proof. rewrite map_map. apply map_ext. intros s. apply stage_tagStage. Qed.

Lemma truthy_tagStage (s : Stage) :
  truthy (isStatic (tagStage s)) = includes STATIC_PENTEST_STAGES (stage s).
Proof.
  unfold tagStage, withIsStatic. cbn [isStatic stage].
  by destruct (includes STATIC_PENTEST_STAGES (stage s)).
Qed.

Lemma elem_of_staticStagesPresentOf (persisted : list Stage) (s : Stage) :
  s ∈ staticStagesPresentOf persisted
  <-> exists s0, s0 ∈ persisted /\ s = tagStage s0 /\ stage s0 ∈ STATIC_PENTEST_STAGES.
Proof.
  unfold staticStagesPresentOf, existingStagesOf.
  rewrite elem_of_List_filter, list_elem_of_fmap. split.
  - intros ((s0 & -> & Hs0) & Ht). exists s0.
    rewrite truthy_tagStage, includes_elem_of in Ht. done.
  - intros (s0 & Hs0 & -> & Hst). split; [by exists s0|].
    by rewrite truthy_tagStage, includes_elem_of.
Qed.

Lemma map_stage_staticStagesPresentOf (persisted : list Stage) :
  map stage (staticStagesPresentOf persisted) = staticStagesInProjectOf persisted.
Proof.
  unfold staticStagesPresentOf, existingStagesOf, staticStagesInProjectOf.
  induction persisted as [|s l IH]; [done|].
  cbn [map List.filter]. rewrite truthy_tagStage.
  destruct (includes STATIC_PENTEST_STAGES (stage s)); cbn [map]; by rewrite IH.
Qed.

Lemma find_stage_Some (present : list Stage) (name : string) (s : Stage) :
  List.find (fun s => String.eqb (stage s) name) present = Some s ->
  s ∈ present /\ stage s = name.
Proof.
  intros Hf. apply List.find_some in Hf as [Hin Heq].
  by rewrite list_elem_of_In, <- String.eqb_eq.
Qed.

Lemma find_stage_None (present : list Stage) (name : string) :
  List.find (fun s => String.eqb (stage s) name) present = None ->
  name ∉ map stage present.
Proof.
  intros Hf Hin. apply list_elem_of_fmap in Hin as (s & -> & Hs).
  apply list_elem_of_In in Hs.
  pose proof (List.find_none _ _ Hf s Hs) as Hne. cbn in Hne.
  by rewrite String.eqb_refl in Hne.
Qed.

(** The names of the reordered statics are the template names that occur
    in the persisted list, in template order. *)
Lemma reordered_names_sub (persisted : list Stage) (template : list string) :
  template ⊆ STATIC_PENTEST_STAGES ->
  map stage
    (filterBoolean
       (map (fun staticStage =>
               List.find (fun s => String.eqb (stage s) staticStage)
                         (staticStagesPresentOf persisted)) template))
  = List.filter (includes (map stage persisted)) template.
Proof.
  induction template as [|name template IH]; intros Hsub; [done|].
  assert (Hname : name ∈ STATIC_PENTEST_STAGES) by (apply Hsub; left).
  assert (Hrest : template ⊆ STATIC_PENTEST_STAGES)
    by (intros x Hx; apply Hsub; by right).
  unfold filterBoolean in *. cbn [map omap list_omap List.filter].
  destruct (List.find _ _) as [s|] eqn:Hf.
  - apply find_stage_Some in Hf as [Hin Hst].
    apply elem_of_staticStagesPresentOf in Hin as (s0 & Hs0 & -> & _).
    replace (includes (map stage persisted) name) with true.
    + cbn. f_equal; [done|]. by apply IH.
    + symmetry. apply includes_elem_of. rewrite <- Hst, stage_tagStage.
      apply list_elem_of_fmap. by exists s0.
  - apply find_stage_None in Hf.
    replace (includes (map stage persisted) name) with false; [by apply IH|].
    symmetry. apply includes_not_elem_of. intros Hin. apply Hf.
    apply list_elem_of_fmap in Hin as (s0 & -> & Hs0).
    apply list_elem_of_fmap. exists (tagStage s0). split; [done|].
    apply elem_of_staticStagesPresentOf. by exists s0.
Qed.

Lemma staticStagesInOrderOf_templateOrder (persisted : list Stage) :
  staticStagesInOrderOf persisted = templateOrder (map stage persisted).
Proof. by apply reordered_names_sub. Qed.

Lemma map_stage_customStagesOf (persisted : list Stage) :
  map stage (customStagesOf persisted) = customNames (map stage persisted).
Proof.
  unfold customStagesOf, existingStagesOf, customNames.
  induction persisted as [|s l IH]; [done|].
  cbn [map List.filter]. rewrite truthy_tagStage.
  destruct (includes STATIC_PENTEST_STAGES (stage s)); cbn [negb map]; by rewrite IH.
Qed.

(** The names of the candidate view: the static names that occur, in
    template order, then the custom names in their original order. *)
Lemma map_stage_updatedStagesOf (persisted : list Stage) :
  map stage (updatedStagesOf persisted)
  = (templateOrder (map stage persisted) ++ customNames (map stage persisted))%list.
Proof.
  unfold updatedStagesOf. rewrite map_app, map_stage_customStagesOf.
  f_equal. apply staticStagesInOrderOf_templateOrder.
Qed.

Lemma updatedStagesOf_names_subseteq (persisted : list Stage) :
  map stage (updatedStagesOf persisted) ⊆ map stage persisted.
Proof.
  rewrite map_stage_updatedStagesOf. intros n.
  unfold templateOrder, customNames.
  rewrite elem_of_app, !elem_of_List_filter, includes_elem_of. tauto.
Qed.

Lemma List_filter_split {A} (f : A -> bool) (l : list A) :
  (List.filter f l ++ List.filter (fun x => negb (f x)) l)%list ≡ₚ l.
Proof.
  induction l as [|x l IH]; [done|].
  cbn [List.filter]. destruct (f x); cbn [negb].
  - cbn. by rewrite IH.
  - rewrite <- Permutation_middle. by rewrite IH.
Qed.

(** A list with unique names repeats no static name. *)
Lemma NoDup_staticStagesInProjectOf (persisted : list Stage) :
  NoDup (map stage persisted) -> NoDup (staticStagesInProjectOf persisted).
Proof.
  intros Hn. unfold staticStagesInProjectOf.
  rewrite <- (List_filter_map (includes STATIC_PENTEST_STAGES) stage).
  by apply NoDup_List_filter.
Qed.

Lemma NoDup_templateOrder (names : list string) : NoDup (templateOrder names).
Proof. apply NoDup_List_filter, NoDup_STATIC_PENTEST_STAGES. Qed.

(** When no static name is repeated, reordering keeps exactly the static
    stages that are present, each with its [done] and [date]. *)
Lemma reorderedStaticStagesOf_Permutation (persisted : list Stage) :
  NoDup (staticStagesInProjectOf persisted) ->
  reorderedStaticStagesOf persisted ≡ₚ staticStagesPresentOf persisted.
Proof.
  intros Hn.
  assert (Hpresent : NoDup (map stage (staticStagesPresentOf persisted))).
  { by rewrite map_stage_staticStagesPresentOf. }
  apply NoDup_Permutation.
  - apply (NoDup_fmap_1 stage).
    change (NoDup (staticStagesInOrderOf persisted)).
    rewrite staticStagesInOrderOf_templateOrder. apply NoDup_templateOrder.
  - by apply (NoDup_fmap_1 stage).
  - intros s. unfold reorderedStaticStagesOf, filterBoolean.
    rewrite list_elem_of_omap. split.
    + intros (o & Ho & Hid). apply list_elem_of_fmap in Ho as (name & -> & _).
      cbn in Hid. by apply find_stage_Some in Hid as [? _].
    + intros Hs.
      destruct (List.find (fun s' => String.eqb (stage s') (stage s))
                          (staticStagesPresentOf persisted)) as [s'|] eqn:Hf.
      * exists (Some s). split; [|done].
        apply list_elem_of_fmap. exists (stage s). split.
        -- rewrite Hf. f_equal. apply find_stage_Some in Hf as [Hs' Hst].
           apply list_elem_of_lookup in Hs as [i Hi].
           apply list_elem_of_lookup in Hs' as [j Hj].
           assert (i = j).
           { eapply (NoDup_lookup _ _ _ (stage s) Hpresent);
               rewrite list_lookup_fmap; [by rewrite Hi|by rewrite Hj, <- Hst]. }
           subst. congruence.
        -- apply elem_of_staticStagesPresentOf in Hs as (s0 & _ & -> & Hst).
           by rewrite stage_tagStage.
      * apply find_stage_None in Hf. exfalso. apply Hf.
        apply list_elem_of_fmap. by exists s.
Qed.

Lemma updatedStagesOf_Permutation (persisted : list Stage) :
  NoDup (staticStagesInProjectOf persisted) ->
  updatedStagesOf persisted ≡ₚ map tagStage persisted.
Proof.
  intros Hn. unfold updatedStagesOf.
  rewrite (reorderedStaticStagesOf_Permutation _ Hn).
  apply List_filter_split.
Qed.

(** [some] with the index: no element satisfies the callback exactly when
    the callback is false at every position. *)
Lemma some_from_false {A} (f : A -> nat -> bool) (idx : nat) (l : list A) :
  some_from f idx l = false
  <-> forall i x, l !! i = Some x -> f x (idx + i)%nat = false.
Proof.
  revert idx. induction l as [|y l IH]; intros idx; cbn [some_from].
  - split; [|done]. intros _ i x Hi. by rewrite lookup_nil in Hi.
  - rewrite orb_false_iff, IH. split.
    + intros [Hy Hl] [|i] x Hi; cbn in Hi.
      * injection Hi as <-. by rewrite Nat.add_0_r.
      * specialize (Hl i x Hi). by rewrite Nat.add_succ_r.
    + intros H. split.
      * specialize (H 0%nat y eq_refl). by rewrite Nat.add_0_r in H.
      * intros i x Hi. specialize (H (S i) x Hi). by rewrite Nat.add_succ_r in H.
Qed.

(** When no static name is repeated and the static names of the persisted
    list are not in template order, the effect finds the order changed and
    the two name lists of equal length. *)
Lemma orderChangedOf_true (persisted : list Stage) :
  NoDup (staticStagesInProjectOf persisted) ->
  staticStagesInProjectOf persisted <> templateOrder (map stage persisted) ->
  orderChangedOf persisted = true
  /\ len (staticStagesInProjectOf persisted) = len (staticStagesInOrderOf persisted).
Proof.
  intros Hn Hne.
  assert (Hlen : length (staticStagesInProjectOf persisted)
                 = length (staticStagesInOrderOf persisted)).
  { unfold staticStagesInOrderOf.
    rewrite <- map_stage_staticStagesPresentOf, !length_map.
    symmetry. by apply Permutation_length, reorderedStaticStagesOf_Permutation. }
  split; [|unfold len; by rewrite Hlen].
  unfold orderChangedOf. apply orb_true_iff. right.
  apply not_false_iff_true. intros Hsome. apply Hne.
  rewrite <- staticStagesInOrderOf_templateOrder.
  unfold some_idx in Hsome. rewrite some_from_false in Hsome.
  apply list_eq_same_length with (length (staticStagesInProjectOf persisted));
    [done|by rewrite Hlen|].
  intros i x y Hi Hx Hy. specialize (Hsome i x Hx).
  cbv beta in Hsome. change (0 + i)%nat with i in Hsome.
  rewrite Hy in Hsome. apply negb_false_iff, String.eqb_eq in Hsome. done.
Qed.

Lemma reconcileEffect_skip (project : Project.t) (c : Card) :
  lastProcessedStagesRef c = Some (stagesKey (Project.pentest_stages project)) ->
  reconcileEffect project c = (c, []).
Proof. intros Href. unfold reconcileEffect. by rewrite bool_decide_eq_true_2. Qed.

Lemma reconcileEffect_ref (project : Project.t) (c : Card) :
  lastProcessedStagesRef (fst (reconcileEffect project c))
  = Some (stagesKey (Project.pentest_stages project)).
Proof.
  unfold reconcileEffect. case_bool_decide as Href; [done|].
  destruct (Project.pentest_stages project) as [persisted|]; [|done].
  cbv zeta.
  destruct (negb (bool_decide (_ = updatedStagesOf persisted)));
    by destruct (_ && _ && _).
Qed.

(** A pass that is not skipped installs the candidate view and writes it
    back under the condition spelled out in the effect. *)
Lemma reconcileEffect_process (project : Project.t) (persisted : list Stage) (c : Card) :
  Project.pentest_stages project = Some persisted ->
  lastProcessedStagesRef c <> Some (stagesKey (Some persisted)) ->
  pentestStages (fst (reconcileEffect project c)) = updatedStagesOf persisted
  /\ snd (reconcileEffect project c)
     = if orderChangedOf persisted && (0 <? len persisted)
          && (len (staticStagesInProjectOf persisted)
              =? len (staticStagesInOrderOf persisted))
       then [correctiveWrite project persisted] else [].
Proof.
  intros Hp Href. unfold reconcileEffect. rewrite Hp.
  rewrite bool_decide_eq_false_2 by done. cbv zeta.
  case_bool_decide as Hview; cbn [negb];
    destruct (_ && _ && _); cbn [fst snd]; split; try done.
Qed.

(** C1. The corrective write of the reconciliation effect does not carry
    the weighted progress.  On a persisted list whose two Preparation
    stages are swapped (one of them done) and followed by a custom stage,
    the static names are a reordering of the template order and the pass
    issues one write; its [progress_percentage] is 33, the share of done
    stages among all three, while [calculateWeightedProgress] of the same
    candidate view is 5. *)
Theorem reconcile_write_progress_not_weighted :
  staticStagesInProjectOf swappedStages ≡ₚ templateOrder (map stage swappedStages)
  /\ writes (snd (reconcileEffect swappedProject (mount swappedProject [] 0 false)))
     = [(7, [Patch.pentest_stages (updatedStagesOf swappedStages);
             Patch.progress_percentage 33])]
  /\ calculateWeightedProgress (updatedStagesOf swappedStages) = 5
  /\ inlineProgress (updatedStagesOf swappedStages) = 5.
Proof.
  split; [|by vm_compute].
  change (staticStagesInProjectOf swappedStages) with ["Accounts Received"; "Kickoff"].
  change (templateOrder (map stage swappedStages)) with ["Kickoff"; "Accounts Received"].
  apply perm_swap.
Qed.

(** C3. The one corrective write of a reordering-only pass does not carry
    the recomputed weighted progress.  On a whole template stored with its
    two Preparation stages swapped and followed by a custom stage, five of
    the sixteen stages done, the pass yields the static stages in template
    order followed by the custom stage, and issues exactly one write; that
    write carries 31, the share of done stages among all sixteen, while the
    weighted progress of the view it stores, the figure the card displays
    and every handler persists, is 44. *)
Theorem reconcile_reordering_progress_not_recomputed :
  NoDup (staticStagesInProjectOf reorderedTemplate)
  /\ staticStagesInProjectOf reorderedTemplate
     <> templateOrder (map stage reorderedTemplate)
  /\ map stage (updatedStagesOf reorderedTemplate)
     = (STATIC_PENTEST_STAGES ++ ["Retest"])%list
  /\ writes (snd (reconcileEffect reorderedProject (mount reorderedProject [] 0 false)))
     = [(9, [Patch.pentest_stages (updatedStagesOf reorderedTemplate);
             Patch.progress_percentage 31])]
  /\ calculateWeightedProgress (updatedStagesOf reorderedTemplate) = 44
  /\ progress (fst (reconcileEffect reorderedProject (mount reorderedProject [] 0 false)))
     = 44.
Proof.
  split; [apply (bool_decide_unpack _); vm_compute; exact I|].
  split; [vm_compute; discriminate|].
  vm_compute. by repeat split.
Qed.

(** What a reordering-only pass does in general.  When the persisted list
    repeats no static name and its static stages are out of template
    order, a pass that is not skipped yields the candidate view whose names
    are the static names in template order followed by the custom names in
    their original order, every stage keeping its [done] and [date]; the
    view is installed and exactly one write is issued, carrying the view
    and [reconcileProgress] of it, the rounded share of done stages. *)
Lemma reconcile_reordering_only
    (project : Project.t) (persisted : list Stage) (c : Card) :
  Project.pentest_stages project = Some persisted ->
  NoDup (staticStagesInProjectOf persisted) ->
  staticStagesInProjectOf persisted <> templateOrder (map stage persisted) ->
  lastProcessedStagesRef c <> Some (stagesKey (Some persisted)) ->
  map stage (updatedStagesOf persisted)
  = (templateOrder (map stage persisted) ++ customNames (map stage persisted))%list
  /\ updatedStagesOf persisted ≡ₚ map tagStage persisted
  /\ pentestStages (fst (reconcileEffect project c)) = updatedStagesOf persisted
  /\ writes (snd (reconcileEffect project c))
     = [(Project.id project,
         [Patch.pentest_stages (updatedStagesOf persisted);
          Patch.progress_percentage (reconcileProgress (updatedStagesOf persisted))])].
Proof.
  intros Hp Hn Horder Href.
  split; [apply map_stage_updatedStagesOf|].
  split; [by apply updatedStagesOf_Permutation|].
  destruct (reconcileEffect_process project persisted c Hp Href) as [Hview Heff].
  split; [done|]. rewrite Heff.
  destruct (orderChangedOf_true persisted Hn Horder) as [-> ->].
  assert (Hlen : (0 <? len persisted) = true).
  { apply Z.ltb_lt. destruct persisted; [|unfold len; cbn; lia].
    exfalso. by apply Horder. }
  by rewrite Hlen, Z.eqb_refl.
Qed.

Lemma reconcile_reordering_only_witness :
  map stage (updatedStagesOf swappedStages) = ["Kickoff"; "Accounts Received"; "Retest"]
  /\ updatedStagesOf swappedStages ≡ₚ map tagStage swappedStages
  /\ pentestStages (fst (reconcileEffect swappedProject (mount swappedProject [] 0 false)))
     = updatedStagesOf swappedStages
  /\ writes (snd (reconcileEffect swappedProject (mount swappedProject [] 0 false)))
     = [(7, [Patch.pentest_stages (updatedStagesOf swappedStages);
             Patch.progress_percentage
               (reconcileProgress (updatedStagesOf swappedStages))])].
Proof.
  apply (reconcile_reordering_only swappedProject swappedStages
           (mount swappedProject [] 0 false)).
  - reflexivity.
  - apply (bool_decide_unpack _). vm_compute. exact I.
  - vm_compute. discriminate.
  - discriminate.
Defined.

(** C4. A second pass on the same persisted input (the same sequence of
    stage names and done flags) is skipped by the fingerprint guard: it
    leaves the card, and so the view, as the first pass left it, and it
    issues no effect, hence no write. *)
Theorem reconcile_twice_skips (project project' : Project.t) (c : Card) :
  stagesKey (Project.pentest_stages project')
  = stagesKey (Project.pentest_stages project) ->
  reconcileEffect project' (fst (reconcileEffect project c))
  = (fst (reconcileEffect project c), []).
Proof.
  intros Hkey. apply reconcileEffect_skip.
  rewrite Hkey. apply reconcileEffect_ref.
Qed.

Lemma reconcile_twice_skips_witness :
  reconcileEffect swappedProject
    (fst (reconcileEffect swappedProject (mount swappedProject [] 0 false)))
  = (fst (reconcileEffect swappedProject (mount swappedProject [] 0 false)), []).
Proof.
  apply (reconcile_twice_skips swappedProject swappedProject). reflexivity.
Defined.

Lemma stagesWritten_app (es1 es2 : list Effect) :
  stagesWritten (es1 ++ es2) = (stagesWritten es1 ++ stagesWritten es2)%list.
Proof.
  unfold stagesWritten, writes.
  by rewrite omap_app, map_app, concat_app, omap_app.
Qed.

(** One pass on a persisted list that lacks [name]: a view that lacks it
    keeps lacking it, a pass that is not skipped yields a view that lacks
    it whatever the view was, and nothing written contains it. *)
Lemma reconcileEffect_absent (name : string) (project : Project.t)
    (persisted : list Stage) (c : Card) :
  Project.pentest_stages project = Some persisted ->
  name ∉ map stage persisted ->
  (name ∉ map stage (pentestStages c) \/ lastProcessedStagesRef c = None) ->
  (name ∉ map stage (pentestStages (fst (reconcileEffect project c))))
  /\ Forall (fun stages => name ∉ map stage stages)
            (stagesWritten (snd (reconcileEffect project c))).
Proof.
  intros Hp Habs Hc.
  assert (Hcand : name ∉ map stage (updatedStagesOf persisted)).
  { intros Hin. by apply Habs, updatedStagesOf_names_subseteq. }
  destruct (decide (lastProcessedStagesRef c = Some (stagesKey (Some persisted))))
    as [Href|Href].
  - rewrite reconcileEffect_skip by (by rewrite Hp). cbn [fst snd].
    split; [|constructor]. destruct Hc as [Hc|Hc]; [done|congruence].
  - destruct (reconcileEffect_process project persisted c Hp Href) as [-> ->].
    split; [done|].
    destruct (_ && _ && _); [|constructor].
    repeat constructor. done.
Qed.

Lemma reconcileAll_absent (name : string) (projects : list Project.t) (c : Card) :
  Forall (fun p => exists persisted,
            Project.pentest_stages p = Some persisted
            /\ name ∉ map stage persisted) projects ->
  name ∉ map stage (pentestStages c) ->
  (name ∉ map stage (pentestStages (fst (reconcileAll projects c))))
  /\ Forall (fun stages => name ∉ map stage stages)
            (stagesWritten (snd (reconcileAll projects c))).
Proof.
  intros Hall. revert c.
  induction Hall as [|p ps (persisted & Hp & Habs) _ IH]; intros c Hc.
  - split; [done|constructor].
  - cbn [reconcileAll].
    destruct (reconcileEffect_absent name p persisted c Hp Habs (or_introl Hc))
      as [Hc1 Hw1].
    destruct (reconcileEffect p c) as [c1 e1]. cbn [fst snd] in *.
    specialize (IH c1 Hc1). destruct (reconcileAll ps c1) as [c2 e2].
    cbn [fst snd] in *. destruct IH as [Hc2 Hw2].
    split; [done|]. rewrite stagesWritten_app. by apply Forall_app.
Qed.

(** C5. A stage name that is absent from the persisted list, a static one
    in particular, is absent from the candidate view of the pass.  And
    over the life of a card, mounted on a project and then run through any
    number of passes on persisted lists that all lack the name, the view
    after the passes never contains it, nor does any stage list the passes
    write back. *)
Theorem reconcile_never_readds (name : string) :
  (forall persisted : list Stage,
     name ∉ map stage persisted ->
     name ∉ map stage (updatedStagesOf persisted))
  /\ (forall (p0 : Project.t) (projects : list Project.t)
             (tests0 : list TestItem.t) (leaveDays0 : Z) (completed0 : bool),
        Forall (fun p => exists persisted,
                  Project.pentest_stages p = Some persisted
                  /\ name ∉ map stage persisted) (p0 :: projects) ->
        (name ∉ map stage
                (pentestStages
                   (fst (reconcileAll (p0 :: projects)
                           (mount p0 tests0 leaveDays0 completed0)))))
        /\ Forall (fun stages => name ∉ map stage stages)
                  (stagesWritten
                     (snd (reconcileAll (p0 :: projects)
                             (mount p0 tests0 leaveDays0 completed0))))).
Proof.
  split.
  - intros persisted Habs Hin. by apply Habs, updatedStagesOf_names_subseteq.
  - intros p0 projects tests0 leaveDays0 completed0 Hall.
    apply Forall_cons in Hall as [(persisted & Hp & Habs) Hall].
    cbn [reconcileAll].
    destruct (reconcileEffect_absent name p0 persisted
                (mount p0 tests0 leaveDays0 completed0) Hp Habs (or_intror eq_refl))
      as [Hc1 Hw1].
    destruct (reconcileEffect p0 _) as [c1 e1]. cbn [fst snd] in *.
    destruct (reconcileAll_absent name projects c1 Hall Hc1) as [Hc2 Hw2].
    destruct (reconcileAll projects c1) as [c2 e2]. cbn [fst snd] in *.
    split; [done|]. rewrite stagesWritten_app. by apply Forall_app.
Qed.

Lemma reconcile_never_readds_witness :
  ("Kickoff" ∉ map stage (updatedStagesOf withoutKickoff))
  /\ ("Kickoff" ∉ map stage
        (pentestStages
           (fst (reconcileAll [Project.mk 7 (Some withoutKickoff) None;
                               Project.mk 7 (Some (rev withoutKickoff)) None]
                   (mount (Project.mk 7 (Some withoutKickoff) None) [] 0 false))))).
Proof.
  assert (Habs : "Kickoff" ∉ map stage withoutKickoff)
    by (apply (bool_decide_unpack _); vm_compute; exact I).
  assert (Habs' : "Kickoff" ∉ map stage (rev withoutKickoff))
    by (apply (bool_decide_unpack _); vm_compute; exact I).
  split.
  - by apply (proj1 (reconcile_never_readds "Kickoff")).
  - apply (proj2 (reconcile_never_readds "Kickoff")).
    repeat constructor; eexists; split; try reflexivity; assumption.
Defined.

(** ** Initial stage view *)

Lemma existingMapOf_foldl (l : list Stage) :
  existingMapOf (Some l) = foldl setByName ∅ l.
Proof.
  unfold existingMapOf. destruct l as [|s l]; [done|].
  replace (0 <? len (s :: l)) with true; [done|].
  symmetry. apply Z.ltb_lt. unfold len. cbn. lia.
Qed.







Lemma initializePentestStages_eq (existingStages : option (list Stage)) :
  initializePentestStages existingStages
  = (initialStaticStages existingStages ++ initialCustomStages existingStages)%list.
Proof. by destruct existingStages. Qed.




(** ** Handlers *)

Lemma writes_persist (project : Project.t) (patch : list Patch.field)
    (resolved : bool) (log msg : string) :
  writes (persist project patch resolved log msg) = [(Project.id project, patch)].
Proof. by destruct resolved. Qed.

(** *** Toggling *)

(** [handleToggleStage] sets the date of the stage it marks done and
    clears the date of the stage it marks not done. *)
Lemma handleToggleStage_completion (project : Project.t) (index : nat)
    (now : timestamp) (resolved : bool) (c : Card) (s : Stage) :
  isSaving c = false ->
  pentestStages c !! index = Some s ->
  exists c' es,
    handleToggleStage project index now resolved c = Some (c', es)
    /\ pentestStages c'
       = <[index := mkStage (stage s) (negb (done s))
                            (if done s then None else Some now) (isStatic s)]>
           (pentestStages c).
Proof.
  intros Hsaving Hs. unfold handleToggleStage. rewrite Hsaving, Hs.
  eexists _, _. split; [reflexivity|]. cbn. by destruct (done s).
Qed.

(** [handleToggleTest] sets the date of the item it marks done, and leaves
    the date of the item it marks not done as it was. *)
Lemma handleToggleTest_completion (project : Project.t) (index : nat)
    (now : timestamp) (resolved : bool) (c : Card) (t : TestItem.t) :
  isSaving c = false ->
  tests c !! index = Some t ->
  exists c' es,
    handleToggleTest project index now resolved c = Some (c', es)
    /\ tests c'
       = <[index := TestItem.mk (TestItem.test t) (negb (TestItem.done t))
                     (if TestItem.done t then TestItem.date t else Some now)]>
           (tests c).
Proof.
  intros Hsaving Ht. unfold handleToggleTest. rewrite Hsaving, Ht.
  eexists _, _. split; [reflexivity|]. cbn. by destruct (TestItem.done t).
Qed.

(** C6. Toggling a test item that is done back to not done leaves its date
    in place: on a card whose only test item was completed on the Monday,
    [handleToggleTest] on the Friday yields the item not done and still
    dated that Monday, and persists it so.  The same toggle on a stage
    clears the date. *)
Theorem handleToggleTest_undone_keeps_date :
  handleToggleTest swappedProject 0 friday true doneTestCard
  = Some (setTests [TestItem.mk "Port scan" false (Some monday)] doneTestCard,
          [updateProject 7
             [Patch.tests_checklist [TestItem.mk "Port scan" false (Some monday)]];
           onUpdate])
  /\ (pentestStages <$> (fst <$> handleToggleStage swappedProject 0 friday true doneTestCard))
     = Some [mkStage "Kickoff" false None (Some true)].
Proof. split; reflexivity. Qed.

(** *** Deleting a stage *)

Lemma remove_from_past {A} (index idx : nat) (l : list A) :
  (index < idx)%nat -> remove_from index idx l = l.
Proof.
  revert idx. induction l as [|x l IH]; intros idx Hlt; [done|].
  cbn [remove_from]. replace (idx =? index)%nat with false.
  - f_equal. apply IH. lia.
  - symmetry. apply Nat.eqb_neq. lia.
Qed.

Lemma remove_from_delete {A} (k idx : nat) (l : list A) :
  remove_from (idx + k) idx l = delete k l.
Proof.
  revert k idx. induction l as [|x l IH]; intros k idx; [by destruct k|].
  cbn [remove_from]. destruct k as [|k].
  - rewrite Nat.add_0_r, Nat.eqb_refl.
    change (delete 0%nat (x :: l)) with l. apply remove_from_past. lia.
  - replace (idx =? idx + S k)%nat with false
      by (symmetry; apply Nat.eqb_neq; lia).
    change (delete (S k) (x :: l)) with (x :: delete k l).
    f_equal. rewrite <- (IH k (S idx)). f_equal. lia.
Qed.

Lemma filter_not_index_delete {A} (index : nat) (l : list A) :
  filter_not_index index l = delete index l.
Proof. apply (remove_from_delete index 0). Qed.

(** C9. [handleDeleteStage] on a stage tagged static is refused: the card
    is left as it was and no persistence request is issued.  On a stage
    that is not static it removes the stage at that index and issues one
    request, carrying the shortened list and the weighted progress
    recomputed from it, the double computation of
    [calculateWeightedProgress] on the shortened list.  For instance,
    deleting the custom stage "Retest" from the sample view
    [partialStages], which leaves two of three, two of three and one of
    four stages of the groups done, writes 62. *)
Theorem handleDeleteStage_static_refused (project : Project.t) (index : nat)
    (resolved : bool) (c : Card) (s : Stage) :
  pentestStages c !! index = Some s ->
  (isStatic s = Some true ->
   handleDeleteStage project index resolved c
   = Some (c, [alert "Cannot delete static pentesting stages"])
   /\ writes [alert "Cannot delete static pentesting stages"] = [])
  /\ (truthy (isStatic s) = false ->
      exists c' es,
        handleDeleteStage project index resolved c = Some (c', es)
        /\ pentestStages c' = delete index (pentestStages c)
        /\ writes es
           = [(Project.id project,
               [Patch.pentest_stages (delete index (pentestStages c));
                Patch.progress_percentage
                  (calculateWeightedProgress (delete index (pentestStages c)))])]
        /\ (pentestStages c = partialStages -> index = 10%nat ->
            writes es
            = [(Project.id project,
                [Patch.pentest_stages (delete 10%nat partialStages);
                 Patch.progress_percentage 62])])).
Proof.
  intros Hs. unfold handleDeleteStage. rewrite Hs. split.
  - intros ->. cbn [truthy]. done.
  - intros ->. eexists _, _. split; [reflexivity|].
    rewrite writes_persist, inlineProgress_eq, filter_not_index_delete.
    split; [done|]. split; [done|].
    intros -> ->. vm_compute. reflexivity.
Qed.

Lemma handleDeleteStage_static_refused_witness :
  (handleDeleteStage swappedProject 0 true partialCard
   = Some (partialCard, [alert "Cannot delete static pentesting stages"])
   /\ writes [alert "Cannot delete static pentesting stages"] = [])
  /\ (exists c' es,
        handleDeleteStage swappedProject 10 true partialCard = Some (c', es)
        /\ pentestStages c' = delete 10%nat partialStages
        /\ writes es
           = [(7, [Patch.pentest_stages (delete 10%nat partialStages);
                   Patch.progress_percentage 62])])
  /\ (exists c' es,
        handleDeleteStage swappedProject 9 false partialCard = Some (c', es)
        /\ pentestStages c' = delete 9%nat partialStages
        /\ writes es
           = [(7, [Patch.pentest_stages (delete 9%nat partialStages);
                   Patch.progress_percentage 66])]).
Proof.
  split; [|split].
  - apply (proj1 (handleDeleteStage_static_refused swappedProject 0 true partialCard
                    (mkStage "Kickoff" true (Some monday) (Some true)) eq_refl)).
    reflexivity.
  - destruct (proj2 (handleDeleteStage_static_refused swappedProject 10 true partialCard
                       (mkStage "Retest" false None (Some false)) eq_refl) eq_refl)
      as (c' & es & Hrun & Hview & _ & Hwrites).
    exists c', es. split; [exact Hrun|]. split; [exact Hview|].
    exact (Hwrites eq_refl eq_refl).
  - destruct (proj2 (handleDeleteStage_static_refused swappedProject 9 false partialCard
                       (mkStage "Kickoff" false None (Some false)) eq_refl) eq_refl)
      as (c' & es & Hrun & Hview & Hwrites & _).
    exists c', es. split; [exact Hrun|]. split; [exact Hview|].
    rewrite Hwrites. vm_compute. reflexivity.
Defined.

(** *** Completing a project *)

(** C7. [handleCompleteProject], on a card that is not saving and with a
    number of leave days that is not negative, issues one persistence
    request: status ["past"], the completion instant, the leave days, and
    [max 0 (calculateBusinessDays start now - leaveDays)] business days
    worked.  With a start on a Monday, completion on the Friday of that
    week and one day of leave, that is 4. *)
Theorem handleCompleteProject_business_days (tzOffset : timestamp -> Z)
    (project : Project.t) (completedAt now : timestamp) (resolved : bool) (c : Card) :
  isSaving c = false ->
  0 <= leaveDays c ->
  writes (snd (handleCompleteProject tzOffset project completedAt now resolved c))
  = [(Project.id project,
      [Patch.status "past";
       Patch.completed_date (Some completedAt);
       Patch.leave_days (leaveDays c);
       Patch.business_days_worked
         (Z.max 0 (calculateBusinessDays tzOffset (Project.start_date project) (Some now)
                   - leaveDays c))])]
  /\ (forall start,
        Project.start_date project = Some start ->
        getDay (startOfDay tzOffset start) = 1 ->
        startOfDay tzOffset now = startOfDay tzOffset start + 4 ->
        leaveDays c = 1 ->
        Z.max 0 (calculateBusinessDays tzOffset (Project.start_date project) (Some now)
                 - leaveDays c) = 4).
Proof.
  intros Hsaving Hleave. split.
  - unfold handleCompleteProject. rewrite Hsaving. cbv zeta.
    set (businessDays := match Project.start_date project with
                         | Some _ => _
                         | None => 0
                         end).
    assert (Hdays : Z.max 0 businessDays
                    = Z.max 0 (calculateBusinessDays tzOffset
                                 (Project.start_date project) (Some now)
                               - leaveDays c)).
    { subst businessDays. destruct (Project.start_date project); [done|].
      cbn [calculateBusinessDays]. lia. }
    destruct resolved; cbn [snd]; by rewrite writes_persist, Hdays.
  - intros start Hstart Hmon Hfri ->. rewrite Hstart.
    rewrite (businessDays_monday_to_friday tzOffset start now Hmon Hfri). done.
Qed.

Lemma handleCompleteProject_business_days_witness :
  writes (snd (handleCompleteProject utc swappedProject friday friday true reconciledCard))
  = [(7, [Patch.status "past";
          Patch.completed_date (Some friday);
          Patch.leave_days 1;
          Patch.business_days_worked 4])].
Proof.
  assert (Hleave : 0 <= leaveDays reconciledCard) by (vm_compute; discriminate).
  destruct (handleCompleteProject_business_days utc swappedProject friday friday true
              reconciledCard eq_refl Hleave) as [Hwrites Hweek].
  rewrite Hwrites.
  rewrite (Hweek monday eq_refl eq_refl eq_refl eq_refl).
  reflexivity.
Defined.

(** * Further properties *)

(** ** Business days *)

Lemma eachDayOfInterval_empty (start end_ : Z) :
  end_ < start -> eachDayOfInterval start end_ = [].
Proof.
  intros Hlt. unfold eachDayOfInterval.
  replace (Z.to_nat (end_ - start + 1)) with 0%nat by lia. done.
Qed.

Lemma calculateBusinessDays_count (tzOffset : timestamp -> Z) (s e : timestamp) :
  calculateBusinessDays tzOffset (Some s) (Some e)
  = countBusinessDays (startOfDay tzOffset s) (startOfDay tzOffset e).
Proof.
  unfold calculateBusinessDays, countBusinessDays.
  destruct (Z.ltb_spec (startOfDay tzOffset e) (startOfDay tzOffset s)) as [Hlt|Hle];
    [|done].
  by rewrite eachDayOfInterval_empty.
Qed.

Lemma length_eachDayOfInterval (start end_ : Z) :
  len (eachDayOfInterval start end_) = Z.max 0 (end_ - start + 1).
Proof. unfold len, eachDayOfInterval. rewrite length_map, length_seq. lia. Qed.

Lemma countBusinessDays_bounds (start end_ : Z) :
  0 <= countBusinessDays start end_ <= Z.max 0 (end_ - start + 1).
Proof.
  unfold countBusinessDays. rewrite <- length_eachDayOfInterval. unfold len.
  pose proof (List.filter_length_le (fun day => negb (isWeekend day))
                (eachDayOfInterval start end_)). lia.
Qed.

Lemma eachDayOfInterval_split (a b c : Z) :
  a <= b + 1 -> b <= c ->
  eachDayOfInterval a c = (eachDayOfInterval a b ++ eachDayOfInterval (b + 1) c)%list.
Proof.
  intros Hab Hbc. unfold eachDayOfInterval.
  replace (Z.to_nat (c - a + 1))
    with (Z.to_nat (b - a + 1) + Z.to_nat (c - (b + 1) + 1))%nat by lia.
  set (k := Z.to_nat (b - a + 1)). set (m := Z.to_nat (c - (b + 1) + 1)).
  rewrite seq_app, map_app. f_equal.
  replace (seq (0 + k) m) with (Nat.add k <$> seq 0 m)
    by (rewrite fmap_add_seq; f_equal; lia).
  rewrite <- list_fmap_compose. apply map_ext. intros i. cbn. lia.
Qed.

Lemma countBusinessDays_split (a b c : Z) :
  a <= b + 1 -> b <= c ->
  countBusinessDays a c = countBusinessDays a b + countBusinessDays (b + 1) c.
Proof.
  intros Hab Hbc. unfold countBusinessDays, len.
  rewrite (eachDayOfInterval_split a b c Hab Hbc), List.filter_app, length_app. lia.
Qed.

Lemma countBusinessDays_week (d : Z) : countBusinessDays d (d + 6) = 5.
Proof.
  unfold countBusinessDays, eachDayOfInterval.
  replace (d + 6 - d + 1) with 7 by lia. change (Z.to_nat 7) with 7%nat.
  cbn [seq map List.filter]. unfold isWeekend. rewrite !getDay_shift.
  pose proof (getDay_range d) as Hr.
  assert (Hcases : getDay d = 0 \/ getDay d = 1 \/ getDay d = 2 \/ getDay d = 3
                   \/ getDay d = 4 \/ getDay d = 5 \/ getDay d = 6) by lia.
  destruct Hcases as [-> | [-> | [-> | [-> | [-> | [-> | ->]]]]]]; reflexivity.
Qed.

(** X1. The result of [calculateBusinessDays] is never negative and never
    exceeds the number of calendar days from the start day to the end day;
    it is 0 as soon as a date is missing. *)
Theorem calculateBusinessDays_bounds (tzOffset : timestamp -> Z)
    (startDate endDate : option timestamp) :
  0 <= calculateBusinessDays tzOffset startDate endDate
  /\ (forall s e, startDate = Some s -> endDate = Some e ->
        calculateBusinessDays tzOffset startDate endDate
        <= Z.max 0 (startOfDay tzOffset e - startOfDay tzOffset s + 1))
  /\ (startDate = None \/ endDate = None ->
      calculateBusinessDays tzOffset startDate endDate = 0).
Proof.
  split; [|split].
  - destruct startDate as [s|], endDate as [e|]; try (cbn; lia).
    rewrite calculateBusinessDays_count. apply countBusinessDays_bounds.
  - intros s e -> ->. rewrite calculateBusinessDays_count.
    apply countBusinessDays_bounds.
  - intros [-> | ->]; [done|]. by destruct startDate.
Qed.

Lemma calculateBusinessDays_bounds_witness :
  calculateBusinessDays utc (Some monday) (Some sunday) <= 7
  /\ calculateBusinessDays utc None (Some sunday) = 0.
Proof.
  split.
  - apply (proj1 (proj2 (calculateBusinessDays_bounds utc (Some monday) (Some sunday)))
             monday sunday eq_refl eq_refl).
  - apply (proj2 (proj2 (calculateBusinessDays_bounds utc None (Some sunday)))).
    by left.
Defined.

(** X2. Business days add up over adjacent periods: when [next] falls on
    the day after [mid], the count from [s] to [e] is the count from [s]
    to [mid] plus the count from [next] to [e]. *)
Theorem calculateBusinessDays_split (tzOffset : timestamp -> Z)
    (s mid next e : timestamp) :
  startOfDay tzOffset s <= startOfDay tzOffset mid + 1 ->
  startOfDay tzOffset next = startOfDay tzOffset mid + 1 ->
  startOfDay tzOffset mid <= startOfDay tzOffset e ->
  calculateBusinessDays tzOffset (Some s) (Some e)
  = calculateBusinessDays tzOffset (Some s) (Some mid)
    + calculateBusinessDays tzOffset (Some next) (Some e).
Proof.
  intros Hs Hnext He. rewrite !calculateBusinessDays_count, Hnext.
  by apply countBusinessDays_split.
Qed.

Lemma calculateBusinessDays_split_witness :
  calculateBusinessDays utc (Some monday) (Some sunday)
  = calculateBusinessDays utc (Some monday) (Some friday)
    + calculateBusinessDays utc (Some saturday) (Some sunday).
Proof.
  apply (calculateBusinessDays_split utc monday friday saturday sunday).
  - vm_compute. discriminate.
  - reflexivity.
  - vm_compute. discriminate.
Defined.

(** X3. Moving the end date seven days later adds exactly five business
    days, wherever the week starts. *)
Theorem calculateBusinessDays_week_later (tzOffset : timestamp -> Z)
    (s e e' : timestamp) :
  startOfDay tzOffset s <= startOfDay tzOffset e + 1 ->
  startOfDay tzOffset e' = startOfDay tzOffset e + 7 ->
  calculateBusinessDays tzOffset (Some s) (Some e')
  = calculateBusinessDays tzOffset (Some s) (Some e) + 5.
Proof.
  intros Hs He'. rewrite !calculateBusinessDays_count, He'.
  rewrite (countBusinessDays_split (startOfDay tzOffset s) (startOfDay tzOffset e))
    by lia.
  f_equal.
  replace (startOfDay tzOffset e + 7) with (startOfDay tzOffset e + 1 + 6) by lia.
  apply countBusinessDays_week.
Qed.

Lemma calculateBusinessDays_week_later_witness :
  calculateBusinessDays utc (Some monday) (Some (friday + 7 * MS_PER_DAY))
  = calculateBusinessDays utc (Some monday) (Some friday) + 5.
Proof.
  apply (calculateBusinessDays_week_later utc monday friday (friday + 7 * MS_PER_DAY)).
  - vm_compute. discriminate.
  - reflexivity.
Defined.

(** X4. The remaining business days are shown only for a project that has
    an end date and is not completed; they are then the business days from
    today to the end date, never negative, and 0 once the end date lies
    before today. *)
Theorem businessDaysRemaining_shown (tzOffset : timestamp -> Z)
    (info : ProjectInfo.t) (now : timestamp) (c : Card) :
  (businessDaysRemaining tzOffset info now c = None
   <-> ProjectInfo.end_date info = None \/ isCompleted c = true)
  /\ (forall end_date,
        ProjectInfo.end_date info = Some end_date ->
        isCompleted c = false ->
        businessDaysRemaining tzOffset info now c
        = Some (calculateBusinessDays tzOffset (Some now) (Some end_date))
        /\ 0 <= calculateBusinessDays tzOffset (Some now) (Some end_date)
        /\ (startOfDay tzOffset end_date < startOfDay tzOffset now ->
            businessDaysRemaining tzOffset info now c = Some 0)).
Proof.
  unfold businessDaysRemaining. split.
  - destruct (ProjectInfo.end_date info) as [end_date|]; [|by split; [left|]].
    destruct (isCompleted c); cbn [negb]; split; try done.
    + by right.
    + intros [H|H]; discriminate.
  - intros end_date -> ->. cbn [negb].
    pose proof (proj1 (countBusinessDays_bounds (startOfDay tzOffset now)
                         (startOfDay tzOffset end_date))) as Hge.
    rewrite <- calculateBusinessDays_count in Hge.
    split; [|split; [done|]].
    + f_equal. lia.
    + intros Hpast. f_equal. unfold calculateBusinessDays.
      apply Z.ltb_lt in Hpast. by rewrite Hpast.
Qed.

Lemma businessDaysRemaining_shown_witness :
  businessDaysRemaining utc ongoingInfo (monday + 7 * MS_PER_DAY)
                        (mount swappedProject [] 0 false) = Some 0.
Proof.
  apply (proj2 (businessDaysRemaining_shown utc ongoingInfo (monday + 7 * MS_PER_DAY)
                  (mount swappedProject [] 0 false)) sunday eq_refl eq_refl).
  reflexivity.
Defined.



(** ** Progress figures *)

(** The share of a group, computed in doubles, lies between 0 and the
    weight of the group, when the weight is itself a double. *)
Lemma groupPct_bounds (completed total weight : Z) :
  0 <= completed <= total -> 0 <= weight -> round64 (ZtoQ weight) = ZtoQ weight ->
  (0 <= groupPct completed total weight /\ groupPct completed total weight <= ZtoQ weight)%Q.
Proof.
  intros Hc Hw Hexact. unfold groupPct.
  destruct (Z.ltb_spec 0 total) as [Hpos|Hnonpos].
  - destruct (fdiv_unit (ZtoQ completed) (ZtoQ total)) as [Hr0 Hr1];
      [apply ZtoQ_nonneg; lia | apply ZtoQ_le; lia | by apply ZtoQ_pos |].
    apply fmul_bounds; [done|done|by apply ZtoQ_nonneg|done].
  - split; [apply Qle_refl | by apply ZtoQ_nonneg].
Qed.

Lemma groupPct_nonneg (completed total weight : Z) :
  0 <= completed -> 0 <= weight -> (0 <= groupPct completed total weight)%Q.
Proof.
  intros Hc Hw. unfold groupPct.
  destruct (Z.ltb_spec 0 total) as [Hpos|Hnonpos]; [|apply Qle_refl].
  unfold fmul, fdiv. apply round64_nonneg, Qmult_le_0_compat; [|by apply ZtoQ_nonneg].
  apply round64_nonneg, Qle_shift_div_l; [by apply ZtoQ_pos|].
  rewrite Qmult_0_l. by apply ZtoQ_nonneg.
Qed.

Lemma groupPct_monotone (completed completed' total weight : Z) :
  0 <= completed <= completed' -> 0 <= weight ->
  (groupPct completed total weight <= groupPct completed' total weight)%Q.
Proof.
  intros Hc Hw. unfold groupPct.
  destruct (Z.ltb_spec 0 total) as [Hpos|Hnonpos]; [|apply Qle_refl].
  apply fmul_monotone; [| |by apply ZtoQ_nonneg].
  - unfold fdiv. apply round64_nonneg, Qle_shift_div_l; [by apply ZtoQ_pos|].
    rewrite Qmult_0_l. apply ZtoQ_nonneg. lia.
  - apply fdiv_monotone; [apply ZtoQ_nonneg; lia | apply ZtoQ_le; lia | by apply ZtoQ_pos].
Qed.

Lemma Math_round_monotone (x y : Q) : (x <= y)%Q -> Math_round x <= Math_round y.
Proof.
  intros Hxy. unfold Math_round. apply Qfloor_resp_le.
  apply Qplus_le_compat; [done|apply Qle_refl].
Qed.

Lemma Math_round_percent (x : Q) :
  (0 <= x)%Q -> (x <= 100)%Q -> 0 <= Math_round x <= 100.
Proof.
  intros H0 H100. split.
  - change 0 with (Math_round 0). by apply Math_round_monotone.
  - change 100 with (Math_round 100). by apply Math_round_monotone.
Qed.

(** X6. Whatever the stage list (stages missing, repeated or custom), the
    weighted progress is a percentage between 0 and 100. *)
Theorem calculateWeightedProgress_percent (stages : list Stage) :
  0 <= calculateWeightedProgress stages <= 100.
Proof.
  unfold calculateWeightedProgress.
  cbv zeta.
  destruct (groupPct_bounds (completedIn PREPARATION_STAGES stages)
              (totalIn PREPARATION_STAGES stages) 10
              (completedIn_le_totalIn _ _) ltac:(lia) ltac:(by vm_compute))
    as [Hp0 Hp].
  destruct (groupPct_bounds (completedIn MAIN_TESTING_STAGES stages)
              (totalIn MAIN_TESTING_STAGES stages) 80
              (completedIn_le_totalIn _ _) ltac:(lia) ltac:(by vm_compute))
    as [Hm0 Hm].
  destruct (groupPct_bounds (completedIn FINAL_STAGES stages)
              (totalIn FINAL_STAGES stages) 10
              (completedIn_le_totalIn _ _) ltac:(lia) ltac:(by vm_compute))
    as [Hf0 Hf].
  destruct (fadd_bounds _ _ 10 80 Hp0 Hp Hm0 Hm ltac:(by vm_compute))
    as [Hpm0 Hpm].
  destruct (fadd_bounds _ _ (10 + 80) 10 Hpm0 Hpm Hf0 Hf ltac:(by vm_compute))
    as [H0 H100].
  apply Math_round_percent; [exact H0|exact H100].
Qed.

Lemma isWeighted_group (group : list string) (name : string) :
  group = PREPARATION_STAGES \/ group = MAIN_TESTING_STAGES \/ group = FINAL_STAGES ->
  includes group name = true -> isWeighted name = true.
Proof.
  unfold isWeighted. intros [-> | [-> | ->]] ->; by rewrite ?orb_true_r.
Qed.

Lemma completedIn_weighted_only (group : list string) (stages : list Stage) :
  group = PREPARATION_STAGES \/ group = MAIN_TESTING_STAGES \/ group = FINAL_STAGES ->
  completedIn group (List.filter (fun s => isWeighted (stage s)) stages)
  = completedIn group stages.
Proof.
  intros Hg. unfold completedIn. f_equal. apply List_filter_filter_sub.
  intros s Hs. apply andb_true_iff in Hs as [Hs _]. by eapply isWeighted_group.
Qed.

Lemma totalIn_weighted_only (group : list string) (stages : list Stage) :
  group = PREPARATION_STAGES \/ group = MAIN_TESTING_STAGES \/ group = FINAL_STAGES ->
  totalIn group (List.filter (fun s => isWeighted (stage s)) stages)
  = totalIn group stages.
Proof.
  intros Hg. unfold totalIn. f_equal. apply List_filter_filter_sub.
  intros s Hs. by eapply isWeighted_group.
Qed.

Lemma calculateWeightedProgress_weighted_only (stages : list Stage) :
  calculateWeightedProgress (List.filter (fun s => isWeighted (stage s)) stages)
  = calculateWeightedProgress stages.
Proof.
  unfold calculateWeightedProgress.
  rewrite !completedIn_weighted_only, !totalIn_weighted_only; auto.
Qed.

Lemma calculateWeightedProgress_drop_unweighted (before after : list Stage) (s : Stage) :
  isWeighted (stage s) = false ->
  calculateWeightedProgress (before ++ s :: after)
  = calculateWeightedProgress (before ++ after).
Proof.
  intros Hs.
  rewrite <- (calculateWeightedProgress_weighted_only (before ++ s :: after)).
  rewrite <- (calculateWeightedProgress_weighted_only (before ++ after)).
  rewrite !List.filter_app. cbn [List.filter]. by rewrite Hs.
Qed.

(** X7. The weighted progress only looks at the stages of the three
    groups: it is the weighted progress of the list with every other
    stage left out, so adding, removing or completing "Ticket Assigned" or
    a custom stage, anywhere in the list, never moves it. *)
Theorem calculateWeightedProgress_ignores_unweighted
    (before after : list Stage) (s : Stage) :
  isWeighted (stage s) = false ->
  calculateWeightedProgress (before ++ s :: after)
  = calculateWeightedProgress (before ++ after)
  /\ isWeighted "Ticket Assigned" = false
  /\ (forall name, name ∉ STATIC_PENTEST_STAGES -> isWeighted name = false).
Proof.
  intros Hs. split; [|split].
  - by apply calculateWeightedProgress_drop_unweighted.
  - reflexivity.
  - intros name Hname. unfold isWeighted.
    rewrite !orb_false_iff, !includes_not_elem_of.
    repeat split; intros Hin; apply Hname;
      repeat (apply elem_of_cons in Hin as [->|Hin];
              [apply (bool_decide_unpack _); vm_compute; exact I|]);
      by apply elem_of_nil in Hin.
Qed.

Lemma calculateWeightedProgress_ignores_unweighted_witness :
  calculateWeightedProgress
    (templateWith 1 2 0 ++ persistedStage "Retest" true :: templateWith 0 0 0)
  = calculateWeightedProgress (templateWith 1 2 0 ++ templateWith 0 0 0).
Proof.
  apply (calculateWeightedProgress_ignores_unweighted
           (templateWith 1 2 0) (templateWith 0 0 0) (persistedStage "Retest" true)).
  reflexivity.
Defined.

Lemma reconcileProgress_groupPct (stages : list Stage) :
  reconcileProgress stages
  = if 0 <? len stages
    then Math_round (groupPct (len (List.filter done stages)) (len stages) 100)
    else 0.
Proof. unfold reconcileProgress, groupPct. by destruct (0 <? len stages). Qed.

Lemma testsProgress_groupPct (c : Card) :
  testsProgress c = groupPct (completedTests c) (totalTests c) 100.
Proof. unfold testsProgress, groupPct. by destruct (0 <? totalTests c). Qed.

(** X8. The raw counters shown beside the bar are consistent: the done
    stages never outnumber the stages, nor the done tests the tests; the
    tests bar and the progress attached to a corrective write lie between
    0 and 100; with no test, or no stage, they are 0. *)
Theorem raw_counters_bounded (c : Card) :
  0 <= completedStages c <= totalStages c
  /\ 0 <= completedTests c <= totalTests c
  /\ (0 <= testsProgress c /\ testsProgress c <= 100)%Q
  /\ 0 <= reconcileProgress (pentestStages c) <= 100
  /\ (tests c = [] -> testsProgress c = 0%Q)
  /\ (pentestStages c = [] -> reconcileProgress (pentestStages c) = 0).
Proof.
  assert (Hstages : 0 <= completedStages c <= totalStages c).
  { unfold completedStages, totalStages, len. split; [lia|].
    apply inj_le, List.filter_length_le. }
  assert (Htests : 0 <= completedTests c <= totalTests c).
  { unfold completedTests, totalTests, len. split; [lia|].
    apply inj_le, List.filter_length_le. }
  split; [done|]. split; [done|]. split; [|split; [|split]].
  - rewrite testsProgress_groupPct.
    apply groupPct_bounds; [exact Htests|lia|by vm_compute].
  - rewrite reconcileProgress_groupPct.
    destruct (0 <? len (pentestStages c)); [|lia].
    destruct (groupPct_bounds (completedStages c) (totalStages c) 100 Hstages
                ltac:(lia) ltac:(by vm_compute)) as [H0 H100].
    apply Math_round_percent; [exact H0|exact H100].
  - intros Hnil. unfold testsProgress, totalTests. by rewrite Hnil.
  - by intros ->.
Qed.

Lemma raw_counters_bounded_witness :
  testsProgress (mount swappedProject [] 0 false) = 0%Q
  /\ reconcileProgress (pentestStages (mkCard [] [] false 0 false false None)) = 0.
Proof.
  split.
  - apply (proj1 (proj2 (proj2 (proj2 (proj2
      (raw_counters_bounded (mount swappedProject [] 0 false))))))).
    reflexivity.
  - apply (proj2 (proj2 (proj2 (proj2 (proj2
      (raw_counters_bounded (mkCard [] [] false 0 false false None))))))).
    reflexivity.
Defined.

(** Where double arithmetic shows: with 23 of 40 stages done the exact
    share is 57.5, which would round to 58; the double product is just
    below it. *)
Example reconcileProgress_23_of_40 :
  reconcileProgress (stagesDone 23 40) = 57
  /\ Math_round (23 / 40 * 100)%Q = 58.
Proof. vm_compute. by split. Qed.

(** ** Reconciliation, continued *)

Lemma tagStage_idemp (s : Stage) : tagStage (tagStage s) = tagStage s.
Proof. reflexivity. Qed.

Lemma elem_of_reorderedStaticStagesOf (persisted : list Stage) (s : Stage) :
  s ∈ reorderedStaticStagesOf persisted -> s ∈ staticStagesPresentOf persisted.
Proof.
  unfold reorderedStaticStagesOf, filterBoolean. rewrite list_elem_of_omap.
  intros (o & Ho & Hid). apply list_elem_of_fmap in Ho as (name & -> & _).
  cbn in Hid. by apply find_stage_Some in Hid as [? _].
Qed.

Lemma elem_of_customStagesOf (persisted : list Stage) (s : Stage) :
  s ∈ customStagesOf persisted
  <-> exists s0, s0 ∈ persisted /\ s = tagStage s0 /\ stage s0 ∉ STATIC_PENTEST_STAGES.
Proof.
  unfold customStagesOf, existingStagesOf.
  rewrite elem_of_List_filter, list_elem_of_fmap. split.
  - intros ((s0 & -> & Hs0) & Ht). exists s0.
    rewrite truthy_tagStage, negb_true_iff, includes_not_elem_of in Ht. done.
  - intros (s0 & Hs0 & -> & Hst). split; [by exists s0|].
    by rewrite truthy_tagStage, negb_true_iff, includes_not_elem_of.
Qed.

(** Every stage of the candidate view is a persisted stage, tagged. *)
Lemma elem_of_updatedStagesOf (persisted : list Stage) (s : Stage) :
  s ∈ updatedStagesOf persisted -> exists s0, s0 ∈ persisted /\ s = tagStage s0.
Proof.
  unfold updatedStagesOf. rewrite elem_of_app. intros [Hs|Hs].
  - apply elem_of_reorderedStaticStagesOf, elem_of_staticStagesPresentOf in Hs
      as (s0 & ? & ? & _). by exists s0.
  - apply elem_of_customStagesOf in Hs as (s0 & ? & ? & _). by exists s0.
Qed.

Lemma List_filter_all {A} (f : A -> bool) (l : list A) :
  Forall (fun x => f x = true) l -> List.filter f l = l.
Proof.
  induction 1 as [|x l Hx _ IH]; [done|]. cbn [List.filter]. by rewrite Hx, IH.
Qed.

Lemma List_filter_none {A} (f : A -> bool) (l : list A) :
  Forall (fun x => f x = false) l -> List.filter f l = [].
Proof.
  induction 1 as [|x l Hx _ IH]; [done|]. cbn [List.filter]. by rewrite Hx, IH.
Qed.

Lemma map_tagStage_updatedStagesOf (persisted : list Stage) :
  map tagStage (updatedStagesOf persisted) = updatedStagesOf persisted.
Proof.
  rewrite <- (map_id (updatedStagesOf persisted)) at 2.
  apply map_ext_in. intros s Hs. apply list_elem_of_In in Hs.
  apply elem_of_updatedStagesOf in Hs as (s0 & _ & ->). apply tagStage_idemp.
Qed.

Lemma Forall_static_reordered (persisted : list Stage) :
  Forall (fun s => truthy (isStatic s) = true) (reorderedStaticStagesOf persisted).
Proof.
  apply Forall_forall. intros s Hs.
  apply elem_of_reorderedStaticStagesOf in Hs.
  unfold staticStagesPresentOf in Hs. by apply elem_of_List_filter in Hs as [_ ?].
Qed.

Lemma Forall_custom_customStagesOf (persisted : list Stage) :
  Forall (fun s => truthy (isStatic s) = false) (customStagesOf persisted).
Proof.
  apply Forall_forall. intros s Hs. unfold customStagesOf in Hs.
  apply elem_of_List_filter in Hs as [_ Hs]. by apply negb_true_iff.
Qed.

Lemma staticStagesPresentOf_updatedStagesOf (persisted : list Stage) :
  staticStagesPresentOf (updatedStagesOf persisted) = reorderedStaticStagesOf persisted.
Proof.
  unfold staticStagesPresentOf, existingStagesOf.
  rewrite map_tagStage_updatedStagesOf. unfold updatedStagesOf.
  rewrite List.filter_app, List_filter_all by apply Forall_static_reordered.
  rewrite List_filter_none by apply Forall_custom_customStagesOf.
  apply app_nil_r.
Qed.

Lemma customStagesOf_updatedStagesOf (persisted : list Stage) :
  customStagesOf (updatedStagesOf persisted) = customStagesOf persisted.
Proof.
  unfold customStagesOf at 1, existingStagesOf.
  rewrite map_tagStage_updatedStagesOf. unfold updatedStagesOf.
  rewrite List.filter_app, List_filter_none.
  - apply List_filter_all. eapply Forall_impl; [apply Forall_custom_customStagesOf|].
    intros s Hs. cbn. by rewrite Hs.
  - eapply Forall_impl; [apply Forall_static_reordered|].
    intros s Hs. cbn. by rewrite Hs.
Qed.

(** Looking the names of a template up in a list whose names are a
    selection of that template, in its order, gives the list back. *)
Lemma refind_selection (template : list string) (pick : string -> bool)
    (selected : list Stage) :
  NoDup template ->
  map stage selected = List.filter pick template ->
  filterBoolean
    (map (fun name => List.find (fun s => String.eqb (stage s) name) selected) template)
  = selected.
Proof.
  intros Hn. revert selected.
  induction Hn as [|name template Hname Hn IH]; intros selected Hsel.
  - cbn in Hsel. by destruct selected.
  - cbn [List.filter] in Hsel. unfold filterBoolean in *. cbn [map omap list_omap].
    destruct (pick name).
    + destruct selected as [|r rest]; [done|]. cbn [map] in Hsel.
      injection Hsel as Hr Hrest. cbn [List.find]. rewrite Hr, String.eqb_refl.
      cbn. f_equal. etrans; [|apply (IH rest Hrest)]. f_equal.
      apply map_ext_in. intros name' Hname'.
      replace (String.eqb name name') with false; [done|].
      symmetry. apply String.eqb_neq. intros ->. apply Hname.
      by apply list_elem_of_In.
    + destruct (List.find (fun s => String.eqb (stage s) name) selected) as [s|] eqn:Hf;
        [|by apply IH].
      apply find_stage_Some in Hf as [Hs Hst]. exfalso. apply Hname.
      assert (Hin : name ∈ map stage selected).
      { apply list_elem_of_fmap. by exists s. }
      rewrite Hsel in Hin. by apply elem_of_List_filter in Hin as [? _].
Qed.

Lemma reorderedStaticStagesOf_updatedStagesOf (persisted : list Stage) :
  reorderedStaticStagesOf (updatedStagesOf persisted) = reorderedStaticStagesOf persisted.
Proof.
  unfold reorderedStaticStagesOf at 1.
  rewrite staticStagesPresentOf_updatedStagesOf.
  apply (refind_selection _ (includes (map stage persisted)));
    [apply NoDup_STATIC_PENTEST_STAGES|].
  apply staticStagesInOrderOf_templateOrder.
Qed.

Lemma some_idx_same (names : list string) :
  some_idx (fun st idx =>
              match names !! idx with
              | Some x => negb (String.eqb st x)
              | None => true
              end) names = false.
Proof.
  unfold some_idx. apply some_from_false. intros i x Hi.
  change (0 + i)%nat with i. by rewrite Hi, String.eqb_refl.
Qed.

(** With lists of equal length the effect finds the order changed exactly
    when the lists differ. *)
Lemma orderChangedOf_iff (persisted : list Stage) :
  len (staticStagesInProjectOf persisted) = len (staticStagesInOrderOf persisted) ->
  orderChangedOf persisted = true
  <-> staticStagesInProjectOf persisted <> staticStagesInOrderOf persisted.
Proof.
  intros Hlen. unfold orderChangedOf. rewrite Hlen, Z.eqb_refl. cbn [negb orb].
  split.
  - intros Hsome Heq. rewrite Heq, some_idx_same in Hsome. done.
  - intros Hne. apply not_false_iff_true. intros Hsome. apply Hne.
    unfold some_idx in Hsome. rewrite some_from_false in Hsome.
    apply list_eq_same_length with (length (staticStagesInProjectOf persisted));
      [unfold len in Hlen; lia|done|].
    intros i x y Hi Hx Hy. specialize (Hsome i x Hx).
    cbv beta in Hsome. change (0 + i)%nat with i in Hsome.
    rewrite Hy in Hsome. by apply negb_false_iff, String.eqb_eq in Hsome.
Qed.

(** X9. The candidate view is a fixed point of reconciliation: computing
    the view of a view gives the same view, its static stages are found in
    order, and a pass on a project whose persisted list is a candidate view
    (the list a corrective write stored) issues no effect, whatever the
    state of the card, so one correction never triggers another. *)
Theorem updatedStagesOf_fixed_point (persisted : list Stage) :
  updatedStagesOf (updatedStagesOf persisted) = updatedStagesOf persisted
  /\ orderChangedOf (updatedStagesOf persisted) = false
  /\ (forall (project : Project.t) (c : Card),
        Project.pentest_stages project = Some (updatedStagesOf persisted) ->
        snd (reconcileEffect project c) = []).
Proof.
  assert (Hfix : updatedStagesOf (updatedStagesOf persisted) = updatedStagesOf persisted).
  { unfold updatedStagesOf at 1.
    by rewrite reorderedStaticStagesOf_updatedStagesOf, customStagesOf_updatedStagesOf. }
  assert (Horder : orderChangedOf (updatedStagesOf persisted) = false).
  { apply not_true_iff_false. intros Hchanged.
    assert (Hsame : staticStagesInProjectOf (updatedStagesOf persisted)
                    = staticStagesInOrderOf (updatedStagesOf persisted)).
    { unfold staticStagesInOrderOf.
      rewrite <- map_stage_staticStagesPresentOf,
        staticStagesPresentOf_updatedStagesOf,
        reorderedStaticStagesOf_updatedStagesOf. done. }
    apply orderChangedOf_iff in Hchanged; [done|by rewrite Hsame]. }
  split; [done|]. split; [done|].
  intros project c Hp.
  destruct (decide (lastProcessedStagesRef c
                    = Some (stagesKey (Some (updatedStagesOf persisted))))) as [Href|Href].
  - by rewrite reconcileEffect_skip by (by rewrite Hp).
  - destruct (reconcileEffect_process project _ c Hp Href) as [_ ->].
    by rewrite Horder.
Qed.

Lemma updatedStagesOf_fixed_point_witness :
  snd (reconcileEffect (Project.mk 7 (Some (updatedStagesOf swappedStages)) None)
         (mount swappedProject [] 0 false)) = [].
Proof.
  apply (proj2 (proj2 (updatedStagesOf_fixed_point swappedStages))).
  reflexivity.
Defined.

(** X10. A pass on a persisted list issues an effect exactly when it is
    not skipped by the fingerprint guard, the static names of the list are
    not in template order, and reordering loses none of them (no static
    name is stored twice); the effect is then the single corrective write.
    So a list in order, an empty list and a list with a repeated static
    name are never written back. *)
Theorem reconcileEffect_writes_iff (project : Project.t) (persisted : list Stage)
    (c : Card) :
  Project.pentest_stages project = Some persisted ->
  (snd (reconcileEffect project c) = [correctiveWrite project persisted]
   \/ snd (reconcileEffect project c) = [])
  /\ (snd (reconcileEffect project c) <> []
      <-> lastProcessedStagesRef c <> Some (stagesKey (Some persisted))
          /\ staticStagesInProjectOf persisted <> templateOrder (map stage persisted)
          /\ length (staticStagesInProjectOf persisted)
             = length (templateOrder (map stage persisted))).
Proof.
  intros Hp. rewrite <- staticStagesInOrderOf_templateOrder.
  destruct (decide (lastProcessedStagesRef c = Some (stagesKey (Some persisted))))
    as [Href|Href].
  { rewrite reconcileEffect_skip by (by rewrite Hp). cbn [snd].
    split; [by right|]. split; [done|]. by intros [? _]. }
  destruct (reconcileEffect_process project persisted c Hp Href) as [_ ->].
  destruct (len (staticStagesInProjectOf persisted)
            =? len (staticStagesInOrderOf persisted)) eqn:Hlen.
  - apply Z.eqb_eq in Hlen.
    pose proof (orderChangedOf_iff persisted Hlen) as Hiff.
    destruct (orderChangedOf persisted) eqn:Hchanged.
    + assert (Hne : staticStagesInProjectOf persisted <> staticStagesInOrderOf persisted)
        by (by apply Hiff).
      assert (Hpos : (0 <? len persisted) = true).
      { apply Z.ltb_lt. destruct persisted; [|unfold len; cbn; lia].
        exfalso. by apply Hne. }
      rewrite Hpos. cbn [andb]. split; [by left|]. split; [|done].
      intros _. split; [done|]. split; [done|]. unfold len in Hlen. lia.
    + cbn [andb]. split; [by right|]. split; [done|].
      intros (_ & Hne & _). apply Hiff in Hne. done.
  - rewrite andb_false_r. split; [by right|]. split; [done|].
    intros (_ & _ & Hlen'). apply Z.eqb_neq in Hlen. unfold len in Hlen. lia.
Qed.

Lemma reconcileEffect_writes_iff_witness :
  snd (reconcileEffect swappedProject (mount swappedProject [] 0 false)) <> [].
Proof.
  apply (proj2 (reconcileEffect_writes_iff swappedProject swappedStages
                  (mount swappedProject [] 0 false) eq_refl)).
  split; [discriminate|]. split; [vm_compute; discriminate|reflexivity].
Defined.

(** X11. A project without a stage list ([pentest_stages] null) keeps the
    full template that the card mounted with, all fifteen stages not done;
    a project with an empty stage list loses it: the first pass replaces
    the mounted template by the empty view.  Neither pass writes. *)
Theorem reconcileEffect_null_and_empty (project : Project.t)
    (tests0 : list TestItem.t) (leaveDays0 : Z) (completed0 : bool) :
  (Project.pentest_stages project = None ->
   pentestStages (mount project tests0 leaveDays0 completed0)
   = map newStaticStage STATIC_PENTEST_STAGES
   /\ reconcileEffect project (mount project tests0 leaveDays0 completed0)
      = (setLastProcessedStagesRef (Some KeyNull)
           (mount project tests0 leaveDays0 completed0), []))
  /\ (Project.pentest_stages project = Some [] ->
      pentestStages (mount project tests0 leaveDays0 completed0)
      = map newStaticStage STATIC_PENTEST_STAGES
      /\ pentestStages
           (fst (reconcileEffect project (mount project tests0 leaveDays0 completed0)))
         = []
      /\ snd (reconcileEffect project (mount project tests0 leaveDays0 completed0))
         = []).
Proof.
  split; intros Hp; unfold reconcileEffect, mount; rewrite Hp; done.
Qed.

Lemma reconcileEffect_null_and_empty_witness :
  pentestStages
    (fst (reconcileEffect (Project.mk 7 (Some []) None)
            (mount (Project.mk 7 (Some []) None) [] 0 false))) = []
  /\ length (pentestStages
               (fst (reconcileEffect (Project.mk 7 None None)
                       (mount (Project.mk 7 None None) [] 0 false)))) = 15%nat.
Proof.
  split.
  - apply (proj2 (reconcileEffect_null_and_empty (Project.mk 7 (Some []) None)
                    [] 0 false) eq_refl).
  - rewrite (proj2 (proj1 (reconcileEffect_null_and_empty (Project.mk 7 None None)
                             [] 0 false) eq_refl)).
    reflexivity.
Defined.

Lemma staticStagesInProjectOf_custom (before after : list Stage) (s : Stage) :
  includes STATIC_PENTEST_STAGES (stage s) = false ->
  staticStagesInProjectOf (before ++ s :: after)
  = staticStagesInProjectOf (before ++ after).
Proof.
  intros Hs. unfold staticStagesInProjectOf.
  rewrite !List.filter_app. cbn [List.filter]. by rewrite Hs.
Qed.

Lemma staticStagesPresentOf_custom (before after : list Stage) (s : Stage) :
  includes STATIC_PENTEST_STAGES (stage s) = false ->
  staticStagesPresentOf (before ++ s :: after)
  = staticStagesPresentOf (before ++ after).
Proof.
  intros Hs. unfold staticStagesPresentOf, existingStagesOf.
  rewrite !map_app, !List.filter_app. cbn [map List.filter].
  by rewrite truthy_tagStage, Hs.
Qed.

(** X12. A custom stage, wherever it sits in the persisted list, plays no
    part in the ordering: the reordered static stages and the verdict on
    the order are those of the list without it, and it stays at its place
    among the custom stages of the view. *)
Theorem reconcile_custom_stage_neutral (before after : list Stage) (s : Stage) :
  includes STATIC_PENTEST_STAGES (stage s) = false ->
  reorderedStaticStagesOf (before ++ s :: after)
  = reorderedStaticStagesOf (before ++ after)
  /\ orderChangedOf (before ++ s :: after) = orderChangedOf (before ++ after)
  /\ updatedStagesOf (before ++ s :: after)
     = (reorderedStaticStagesOf (before ++ after)
        ++ customStagesOf before ++ tagStage s :: customStagesOf after)%list.
Proof.
  intros Hs.
  assert (Hre : reorderedStaticStagesOf (before ++ s :: after)
                = reorderedStaticStagesOf (before ++ after)).
  { unfold reorderedStaticStagesOf. by rewrite staticStagesPresentOf_custom. }
  split; [done|]. split.
  - unfold orderChangedOf, staticStagesInOrderOf.
    by rewrite Hre, staticStagesInProjectOf_custom.
  - unfold updatedStagesOf. rewrite Hre. f_equal.
    unfold customStagesOf, existingStagesOf.
    rewrite !map_app, !List.filter_app. cbn [map List.filter].
    by rewrite truthy_tagStage, Hs.
Qed.

Lemma reconcile_custom_stage_neutral_witness :
  orderChangedOf (updatedStagesOf swappedStages ++ [newCustomStage "Phishing"])
  = orderChangedOf (updatedStagesOf swappedStages ++ []).
Proof.
  apply (reconcile_custom_stage_neutral (updatedStagesOf swappedStages) []
           (newCustomStage "Phishing")).
  reflexivity.
Defined.

(** ** The completion invariant of stages *)

Lemma stageInvariant_tagStage (s : Stage) : stageInvariant s -> stageInvariant (tagStage s).
Proof. done. Qed.

Lemma foldl_setByName_elem (l : list Stage) (m : gmap string Stage)
    (name : string) (e : Stage) :
  foldl setByName m l !! name = Some e -> e ∈ l \/ m !! name = Some e.
Proof.
  revert m. induction l as [|x l IH]; intros m He; [by right|].
  cbn [foldl] in He. apply IH in He as [He|He]; [left; by right|].
  unfold setByName in He. rewrite lookup_insert in He. case_decide.
  - injection He as <-. left. by left.
  - by right.
Qed.

Lemma existingMapOf_elem (existingStages : option (list Stage))
    (name : string) (e : Stage) :
  existingMapOf existingStages !! name = Some e -> e ∈ default [] existingStages.
Proof.
  destruct existingStages as [l|]; [|done].
  rewrite existingMapOf_foldl. intros He.
  apply foldl_setByName_elem in He as [He|He]; [done|].
  by rewrite lookup_empty in He.
Qed.

(** X13. The completion invariant of stages (a stage that is not done has
    no date) is kept by everything that builds or edits the stage view: if
    the persisted stages satisfy it, so do the mounted view and the
    reconciled view; and a view that satisfies it still does after a
    toggle, an added stage or a deleted stage. *)
Theorem stage_invariant_preserved :
  (forall existingStages,
     Forall stageInvariant (default [] existingStages) ->
     Forall stageInvariant (initializePentestStages existingStages))
  /\ (forall persisted,
        Forall stageInvariant persisted ->
        Forall stageInvariant (updatedStagesOf persisted))
  /\ (forall project index now resolved c c' es,
        Forall stageInvariant (pentestStages c) ->
        handleToggleStage project index now resolved c = Some (c', es) ->
        Forall stageInvariant (pentestStages c'))
  /\ (forall project index resolved c c' es,
        Forall stageInvariant (pentestStages c) ->
        handleDeleteStage project index resolved c = Some (c', es) ->
        Forall stageInvariant (pentestStages c'))
  /\ (forall trim info resolved cv,
        Forall stageInvariant (pentestStages (card cv)) ->
        Forall stageInvariant
          (pentestStages (card (fst (handleAddStage trim info resolved cv))))).
Proof.
  split; [|split; [|split; [|split]]].
  - intros existingStages Hall. rewrite initializePentestStages_eq.
    apply Forall_app. split.
    + unfold initialStaticStages. apply Forall_fmap, Forall_forall.
      intros name _. cbn.
      destruct (existingMapOf existingStages !! name) as [e|] eqn:He; [|done].
      apply existingMapOf_elem in He.
      by apply (proj1 (Forall_forall _ _) Hall e).
    + unfold initialCustomStages. apply Forall_forall. intros s Hs.
      apply elem_of_List_filter in Hs as [Hs _].
      by apply (proj1 (Forall_forall _ _) Hall s).
  - intros persisted Hall. apply Forall_forall. intros s Hs.
    apply elem_of_updatedStagesOf in Hs as (s0 & Hs0 & ->).
    apply stageInvariant_tagStage. by apply (proj1 (Forall_forall _ _) Hall s0).
  - intros project index now resolved c c' es Hall. unfold handleToggleStage.
    destruct (isSaving c); [by intros [= <- _]|].
    destruct (pentestStages c !! index) as [s|]; [|done].
    intros [= <- _]. cbn. apply Forall_insert; [done|].
    unfold stageInvariant. cbn. by intros ->.
  - intros project index resolved c c' es Hall. unfold handleDeleteStage.
    destruct (pentestStages c !! index) as [s|]; [|done].
    destruct (truthy (isStatic s)); [by intros [= <- _]|].
    intros [= <- _]. cbn. rewrite filter_not_index_delete. by apply Forall_delete.
  - intros trim info resolved cv Hall. unfold handleAddStage.
    destruct (isSaving (card cv)); [done|].
    destruct (String.eqb _ _); [done|]. cbn.
    apply Forall_app. split; [done|]. by repeat constructor.
Qed.

Lemma stage_invariant_preserved_witness :
  Forall stageInvariant (updatedStagesOf swappedStages)
  /\ Forall stageInvariant (initializePentestStages (Some swappedStages)).
Proof.
  assert (Hall : Forall stageInvariant swappedStages) by (by repeat constructor).
  split.
  - by apply (proj1 (proj2 stage_invariant_preserved)).
  - by apply (proj1 stage_invariant_preserved (Some swappedStages)).
Defined.

(** ** Handlers, continued *)

Lemma elem_of_view_after_pass (project : Project.t) (persisted : list Stage)
    (c : Card) (s : Stage) :
  Project.pentest_stages project = Some persisted ->
  lastProcessedStagesRef c <> Some (stagesKey (Some persisted)) ->
  s ∈ pentestStages (fst (reconcileEffect project c)) ->
  truthy (isStatic s) = includes STATIC_PENTEST_STAGES (stage s).
Proof.
  intros Hp Href Hs.
  rewrite (proj1 (reconcileEffect_process project persisted c Hp Href)) in Hs.
  apply elem_of_updatedStagesOf in Hs as (s0 & _ & ->). exact (truthy_tagStage s0).
Qed.

(** X14. After a pass that is not skipped, the static tags of the view are
    exact (a stage is tagged static exactly when its name is a template
    name), so on that view [handleDeleteStage] refuses every stage that
    bears a template name and removes any other stage it is pointed at. *)
Theorem delete_guard_after_pass (project : Project.t) (persisted : list Stage)
    (c : Card) (index : nat) (resolved : bool) (s : Stage) :
  Project.pentest_stages project = Some persisted ->
  lastProcessedStagesRef c <> Some (stagesKey (Some persisted)) ->
  pentestStages (fst (reconcileEffect project c)) !! index = Some s ->
  (stage s ∈ STATIC_PENTEST_STAGES ->
   handleDeleteStage project index resolved (fst (reconcileEffect project c))
   = Some (fst (reconcileEffect project c),
           [alert "Cannot delete static pentesting stages"]))
  /\ (stage s ∉ STATIC_PENTEST_STAGES ->
      exists c' es,
        handleDeleteStage project index resolved (fst (reconcileEffect project c))
        = Some (c', es)
        /\ pentestStages c'
           = delete index (pentestStages (fst (reconcileEffect project c)))).
Proof.
  intros Hp Href Hs.
  assert (Htag : truthy (isStatic s) = includes STATIC_PENTEST_STAGES (stage s)).
  { eapply elem_of_view_after_pass; [done|done|]. by eapply list_elem_of_lookup_2. }
  unfold handleDeleteStage. rewrite Hs, Htag. split.
  - intros Hin. by rewrite (proj2 (includes_elem_of _ _) Hin).
  - intros Hout. rewrite (proj2 (includes_not_elem_of _ _) Hout).
    eexists _, _. split; [reflexivity|]. cbn. apply filter_not_index_delete.
Qed.

Lemma delete_guard_after_pass_witness :
  handleDeleteStage swappedProject 1 true reconciledCard
  = Some (reconciledCard, [alert "Cannot delete static pentesting stages"]).
Proof.
  apply (proj1 (delete_guard_after_pass swappedProject swappedStages
                  (mount swappedProject [] 1 false) 1 true
                  (mkStage "Accounts Received" true None (Some true))
                  eq_refl ltac:(discriminate) eq_refl)).
  apply (bool_decide_unpack _). vm_compute. exact I.
Defined.

Lemma List_filter_delete_false {A} (f : A -> bool) (l : list A) (i : nat) (x : A) :
  l !! i = Some x -> f x = false -> List.filter f (delete i l) = List.filter f l.
Proof.
  revert i. induction l as [|y l IH]; intros [|i] Hi Hx; try done.
  - injection Hi as ->. cbn. by rewrite Hx.
  - cbn in Hi. change (delete (S i) (y :: l)) with (y :: delete i l).
    cbn [List.filter]. by rewrite (IH i Hi Hx).
Qed.

(** X15. Whatever index it is given, [handleDeleteStage] never removes a
    stage tagged static: the static-tagged stages of the view are the same,
    in the same order, after the call as before. *)
Theorem handleDeleteStage_keeps_static (project : Project.t) (index : nat)
    (resolved : bool) (c c' : Card) (es : list Effect) :
  handleDeleteStage project index resolved c = Some (c', es) ->
  List.filter (fun s => truthy (isStatic s)) (pentestStages c')
  = List.filter (fun s => truthy (isStatic s)) (pentestStages c).
Proof.
  unfold handleDeleteStage.
  destruct (pentestStages c !! index) as [s|] eqn:Hs; [|done].
  destruct (truthy (isStatic s)) eqn:Htag; [by intros [= <- _]|].
  intros [= <- _]. cbn. rewrite filter_not_index_delete.
  by apply (List_filter_delete_false _ _ _ s).
Qed.

Lemma handleDeleteStage_keeps_static_witness :
  List.filter (fun s => truthy (isStatic s))
    (pentestStages (setIsSaving false
       (setPentestStages (delete 2%nat (pentestStages reconciledCard)) reconciledCard)))
  = List.filter (fun s => truthy (isStatic s)) (pentestStages reconciledCard).
Proof.
  apply (handleDeleteStage_keeps_static swappedProject 2 true reconciledCard _
           (persist swappedProject
              [Patch.pentest_stages (delete 2%nat (pentestStages reconciledCard));
               Patch.progress_percentage
                 (inlineProgress (delete 2%nat (pentestStages reconciledCard)))]
              true "Error deleting stage:" "Failed to delete stage")).
  reflexivity.
Defined.

(** X16. While a save is in flight ([isSaving]) the gated handlers do
    nothing at all: toggling a stage or a test, adding a stage or a test,
    deleting a test, completing or reopening the project and changing the
    kickoff status, by the handler or by a click on the control, leave
    every cell as it was and issue no effect. *)
Theorem handlers_gated_while_saving (tzOffset : timestamp -> Z)
    (trim : string -> string) (info : ProjectInfo.t) (cv : CardView)
    (index : nat) (now : timestamp) (resolved confirmed : bool)
    (newStatus : string) (opt : KickoffStatus.option_) :
  isSaving (card cv) = true ->
  handleToggleStage (ProjectInfo.core info) index now resolved (card cv)
  = Some (card cv, [])
  /\ handleToggleTest (ProjectInfo.core info) index now resolved (card cv)
     = Some (card cv, [])
  /\ handleAddStage trim info resolved cv = (cv, [])
  /\ handleAddTest trim info resolved cv = (cv, [])
  /\ handleDeleteTest info index resolved (card cv) = (card cv, [])
  /\ handleCompleteProject tzOffset (ProjectInfo.core info) now now resolved (card cv)
     = (card cv, [])
  /\ handleUncompleteProject info confirmed resolved (card cv) = (card cv, [])
  /\ handleKickoffStatusChange info newStatus resolved cv = (cv, [])
  /\ clickKickoffOption info opt resolved cv = (cv, []).
Proof.
  intros Hsaving.
  unfold handleToggleStage, handleToggleTest, handleAddStage, handleAddTest,
    handleDeleteTest, handleCompleteProject, handleUncompleteProject,
    handleKickoffStatusChange, clickKickoffOption, KickoffStatus.handleStatusChange.
  rewrite Hsaving. repeat split.
Qed.

Lemma handlers_gated_while_saving_witness :
  handleAddStage trimAscii ongoingInfo true
    (mkCardView (setIsSaving true reconciledCard) "" "" "Phishing" "queued")
  = (mkCardView (setIsSaving true reconciledCard) "" "" "Phishing" "queued", []).
Proof.
  apply (handlers_gated_while_saving utc trimAscii ongoingInfo
           (mkCardView (setIsSaving true reconciledCard) "" "" "Phishing" "queued")
           0 monday true true "done" (KickoffStatus.mkOption "done" "Done" "" "")).
  reflexivity.
Defined.

(** X17. Toggling the same stage twice: a stage that was not done (and had
    no date) is back exactly as it was, and so is the whole view; a stage
    that was done is done again, but its date is now the instant of the
    second toggle, the original date being lost. *)
Theorem handleToggleStage_twice (project : Project.t) (index : nat)
    (now1 now2 : timestamp) (resolved1 resolved2 : bool) (c : Card) (s : Stage) :
  isSaving c = false ->
  pentestStages c !! index = Some s ->
  exists c1 es1 c2 es2,
    handleToggleStage project index now1 resolved1 c = Some (c1, es1)
    /\ handleToggleStage project index now2 resolved2 c1 = Some (c2, es2)
    /\ (done s = false -> date s = None -> pentestStages c2 = pentestStages c)
    /\ (done s = true ->
        pentestStages c2
        = <[index := mkStage (stage s) true (Some now2) (isStatic s)]> (pentestStages c)).
Proof.
  intros Hsaving Hs.
  assert (Hlt : (index < length (pentestStages c))%nat) by (by eapply lookup_lt_Some).
  set (s1 := mkStage (stage s) (negb (done s))
                     (if negb (done s) then Some now1 else None) (isStatic s)).
  set (c1 := setIsSaving false
               (setPentestStages (<[index := s1]> (pentestStages c)) c)).
  assert (Hs1 : pentestStages c1 !! index = Some s1)
    by (by apply list_lookup_insert_eq).
  eexists c1, _, _, _. split; [|split].
  - unfold handleToggleStage. by rewrite Hsaving, Hs.
  - unfold handleToggleStage. change (isSaving c1) with false. cbv iota.
    rewrite Hs1. reflexivity.
  - cbn [pentestStages setIsSaving setPentestStages c1].
    rewrite list_insert_insert_eq. subst s1. cbn [stage done isStatic]. split.
    + intros Hdone Hdate. rewrite Hdone. cbn. apply list_insert_id.
      rewrite Hs. f_equal. destruct s. cbn in *. by subst.
    + intros Hdone. by rewrite Hdone.
Qed.

Lemma handleToggleStage_twice_witness :
  exists c1 es1 c2 es2,
    handleToggleStage swappedProject 0 monday true reconciledCard = Some (c1, es1)
    /\ handleToggleStage swappedProject 0 friday true c1 = Some (c2, es2)
    /\ pentestStages c2 = pentestStages reconciledCard.
Proof.
  destruct (handleToggleStage_twice swappedProject 0 monday friday true true
              reconciledCard (mkStage "Kickoff" false None (Some true))
              eq_refl eq_refl) as (c1 & es1 & c2 & es2 & H1 & H2 & Hback & _).
  exists c1, es1, c2, es2. split; [done|]. split; [done|]. by apply Hback.
Defined.

Lemma completedIn_middle (group : list string) (before after : list Stage) (s : Stage) :
  completedIn group (before ++ s :: after)
  = completedIn group before
    + (if includes group (stage s) && done s then 1 else 0)
    + completedIn group after.
Proof.
  unfold completedIn, len. rewrite List.filter_app, length_app. cbn [List.filter].
  destruct (includes group (stage s) && done s); cbn [length]; lia.
Qed.

Lemma totalIn_middle (group : list string) (before after : list Stage) (s : Stage) :
  totalIn group (before ++ s :: after)
  = totalIn group before
    + (if includes group (stage s) then 1 else 0)
    + totalIn group after.
Proof.
  unfold totalIn, len. rewrite List.filter_app, length_app. cbn [List.filter].
  destruct (includes group (stage s)); cbn [length]; lia.
Qed.

Lemma calculateWeightedProgress_monotone (stages stages' : list Stage) :
  (forall group, totalIn group stages = totalIn group stages') ->
  (forall group, completedIn group stages <= completedIn group stages') ->
  calculateWeightedProgress stages <= calculateWeightedProgress stages'.
Proof.
  intros Htotal Hcompleted. unfold calculateWeightedProgress. cbv zeta.
  rewrite !Htotal.
  assert (Hgroup : forall group weight, 0 <= weight ->
            (0 <= groupPct (completedIn group stages) (totalIn group stages') weight)%Q
            /\ (groupPct (completedIn group stages) (totalIn group stages') weight
                <= groupPct (completedIn group stages') (totalIn group stages') weight)%Q).
  { intros group weight Hw.
    pose proof (completedIn_le_totalIn group stages) as Hc.
    split; [apply groupPct_nonneg; lia|].
    apply groupPct_monotone; [|done]. split; [lia|apply Hcompleted]. }
  destruct (Hgroup PREPARATION_STAGES 10 ltac:(lia)) as [Hp0 Hp].
  destruct (Hgroup MAIN_TESTING_STAGES 80 ltac:(lia)) as [Hm0 Hm].
  destruct (Hgroup FINAL_STAGES 10 ltac:(lia)) as [Hf0 Hf].
  apply Math_round_monotone, fadd_monotone.
  - unfold fadd. apply round64_nonneg. lra.
  - apply fadd_monotone; [exact Hp0|exact Hp|exact Hm0|exact Hm].
  - exact Hf0.
  - exact Hf.
Qed.

Lemma calculateWeightedProgress_mark (before after : list Stage) (s s' : Stage) :
  stage s' = stage s ->
  (done s = true -> done s' = true) ->
  calculateWeightedProgress (before ++ s :: after)
  <= calculateWeightedProgress (before ++ s' :: after).
Proof.
  intros Hname Hdone. apply calculateWeightedProgress_monotone; intros group.
  - by rewrite !totalIn_middle, Hname.
  - rewrite !completedIn_middle, Hname.
    destruct (includes group (stage s)); cbn [andb]; [|lia].
    destruct (done s); [rewrite Hdone by done; lia|destruct (done s'); lia].
Qed.

(** X18. What a stage toggle does to the progress it persists: the
    request carries the weighted progress of the new view; marking a stage
    done never lowers the progress, marking it not done never raises it,
    and toggling a stage outside the three groups ("Ticket Assigned", any
    custom stage) leaves it as it was. *)
Theorem handleToggleStage_progress (project : Project.t) (index : nat)
    (now : timestamp) (resolved : bool) (c : Card) (s : Stage) :
  isSaving c = false ->
  pentestStages c !! index = Some s ->
  exists c' es,
    handleToggleStage project index now resolved c = Some (c', es)
    /\ writes es = [(Project.id project,
                     [Patch.pentest_stages (pentestStages c');
                      Patch.progress_percentage (progress c')])]
    /\ (done s = false -> progress c <= progress c')
    /\ (done s = true -> progress c' <= progress c)
    /\ (isWeighted (stage s) = false -> progress c' = progress c).
Proof.
  intros Hsaving Hs.
  assert (Hlt : (index < length (pentestStages c))%nat) by (by eapply lookup_lt_Some).
  unfold handleToggleStage. rewrite Hsaving, Hs. eexists _, _.
  split; [reflexivity|]. rewrite writes_persist, inlineProgress_eq.
  split; [reflexivity|]. unfold progress. cbn [pentestStages setIsSaving setPentestStages].
  rewrite insert_take_drop by done.
  pose proof (take_drop_middle (pentestStages c) index s Hs) as Hsplit.
  set (before := take index (pentestStages c)) in *.
  set (after := drop (S index) (pentestStages c)) in *.
  clearbody before after. rewrite <- Hsplit.
  split; [|split].
  - intros Hdone. apply calculateWeightedProgress_mark; [done|]. by rewrite Hdone.
  - intros Hdone. apply calculateWeightedProgress_mark; [done|].
    rewrite Hdone. cbn. done.
  - intros Hw. by rewrite !calculateWeightedProgress_drop_unweighted.
Qed.

Lemma handleToggleStage_progress_witness :
  exists c' es,
    handleToggleStage swappedProject 4 friday true partialCard = Some (c', es)
    /\ writes es = [(7, [Patch.pentest_stages (pentestStages c');
                         Patch.progress_percentage 89])]
    /\ progress partialCard = 62
    /\ progress c' = 89
    /\ progress partialCard <= progress c'.
Proof.
  destruct (handleToggleStage_progress swappedProject 4 friday true partialCard
              (mkStage "Automated Testing" false None (Some true)) eq_refl eq_refl)
    as (c' & es & Hrun & Hwrites & Hup & _).
  exists c', es. split; [exact Hrun|].
  assert (Hprogress : progress c' = 89).
  { pose proof Hrun as Hval. vm_compute in Hval.
    injection Hval as <- _. vm_compute. reflexivity. }
  split; [by rewrite Hwrites, Hprogress|].
  split; [vm_compute; reflexivity|].
  split; [exact Hprogress|]. by apply Hup.
Defined.

(** X19. [handleAddStage] ignores a name that trims to nothing.  Otherwise
    it appends one custom stage, not done and deletable, after the stages
    already there, empties the input, and sends the new list alone, with
    no progress value; rightly so when the name is outside the three
    groups, for the weighted progress of the view is then unchanged. *)
Theorem handleAddStage_appends (trim : string -> string) (info : ProjectInfo.t)
    (resolved : bool) (cv : CardView) :
  isSaving (card cv) = false ->
  (trim (newStage cv) = "" -> handleAddStage trim info resolved cv = (cv, []))
  /\ (trim (newStage cv) <> "" ->
      pentestStages (card (fst (handleAddStage trim info resolved cv)))
      = (pentestStages (card cv) ++ [newCustomStage (trim (newStage cv))])%list
      /\ newStage (fst (handleAddStage trim info resolved cv)) = ""
      /\ writes (snd (handleAddStage trim info resolved cv))
         = [(Project.id (ProjectInfo.core info),
             [Patch.pentest_stages
                (pentestStages (card cv) ++ [newCustomStage (trim (newStage cv))])])]
      /\ (isWeighted (trim (newStage cv)) = false ->
          progress (card (fst (handleAddStage trim info resolved cv)))
          = progress (card cv))).
Proof.
  intros Hsaving. unfold handleAddStage. rewrite Hsaving. split.
  - intros ->. done.
  - intros Hname. apply String.eqb_neq in Hname. rewrite Hname.
    cbn [fst snd card newStage setCard setNewStage pentestStages setIsSaving
         setPentestStages].
    split; [done|]. split; [done|]. split; [apply writes_persist|].
    intros Hw. unfold progress.
    change (pentestStages (setIsSaving false (setPentestStages ?l _))) with l.
    rewrite calculateWeightedProgress_drop_unweighted by done.
    by rewrite app_nil_r.
Qed.

Lemma handleAddStage_appends_witness :
  pentestStages
    (card (fst (handleAddStage trimAscii ongoingInfo true
                  (mkCardView reconciledCard "" "" "  Phishing " "queued"))))
  = (pentestStages reconciledCard ++ [newCustomStage "Phishing"])%list
  /\ handleAddStage trimAscii ongoingInfo true
       (mkCardView reconciledCard "" "" "   " "queued")
     = (mkCardView reconciledCard "" "" "   " "queued", []).
Proof.
  split.
  - apply (proj2 (handleAddStage_appends trimAscii ongoingInfo true
                    (mkCardView reconciledCard "" "" "  Phishing " "queued") eq_refl)).
    discriminate.
  - apply (proj1 (handleAddStage_appends trimAscii ongoingInfo true
                    (mkCardView reconciledCard "" "" "   " "queued") eq_refl)).
    reflexivity.
Defined.

(** X20. Adding a stage and deleting it again is a round trip: the stage
    just added sits at the old length of the list, [handleDeleteStage]
    accepts to delete it there, and the view is the one before the
    addition. *)
Theorem handleAddStage_then_delete (trim : string -> string) (info : ProjectInfo.t)
    (resolved1 resolved2 : bool) (cv : CardView) :
  isSaving (card cv) = false ->
  trim (newStage cv) <> "" ->
  exists c' es,
    handleDeleteStage (ProjectInfo.core info) (length (pentestStages (card cv))) resolved2
      (card (fst (handleAddStage trim info resolved1 cv))) = Some (c', es)
    /\ pentestStages c' = pentestStages (card cv)
    /\ writes es
       = [(Project.id (ProjectInfo.core info),
           [Patch.pentest_stages (pentestStages (card cv));
            Patch.progress_percentage (progress (card cv))])].
Proof.
  intros Hsaving Hname. apply String.eqb_neq in Hname.
  unfold handleAddStage. rewrite Hsaving, Hname.
  cbn [fst card setCard]. unfold handleDeleteStage.
  cbn [pentestStages setIsSaving setPentestStages].
  rewrite list_lookup_middle by done. cbn [truthy isStatic newCustomStage].
  rewrite filter_not_index_delete, delete_middle, app_nil_r.
  eexists _, _. split; [reflexivity|]. split; [done|].
  by rewrite writes_persist, inlineProgress_eq.
Qed.

Lemma handleAddStage_then_delete_witness :
  exists c' es,
    handleDeleteStage swappedProject 11 true
      (card (fst (handleAddStage trimAscii ongoingInfo true
                    (mkCardView partialCard "" "" "Phishing" "queued"))))
    = Some (c', es)
    /\ pentestStages c' = partialStages
    /\ writes es = [(7, [Patch.pentest_stages partialStages;
                         Patch.progress_percentage 62])].
Proof.
  destruct (handleAddStage_then_delete trimAscii ongoingInfo true true
              (mkCardView partialCard "" "" "Phishing" "queued")
              eq_refl ltac:(discriminate)) as (c' & es & Hrun & Hview & Hwrites).
  exists c', es. split; [exact Hrun|]. split; [exact Hview|].
  rewrite Hwrites. vm_compute. reflexivity.
Defined.

(** X21. The tests checklist: [handleAddTest] ignores a text that trims to
    nothing and otherwise appends one test that is not done;
    [handleDeleteTest] removes the test at the index, so deleting at the
    old length undoes an addition; and with an index beyond the list it
    removes nothing, yet still sends the unchanged list. *)
Theorem tests_add_delete (trim : string -> string) (info : ProjectInfo.t)
    (resolved1 resolved2 : bool) (index : nat) (cv : CardView) :
  isSaving (card cv) = false ->
  (trim (newTest cv) = "" -> handleAddTest trim info resolved1 cv = (cv, []))
  /\ (trim (newTest cv) <> "" ->
      tests (card (fst (handleAddTest trim info resolved1 cv)))
      = (tests (card cv) ++ [newTestItem (trim (newTest cv))])%list
      /\ tests (fst (handleDeleteTest info (length (tests (card cv))) resolved2
                       (card (fst (handleAddTest trim info resolved1 cv)))))
         = tests (card cv))
  /\ tests (fst (handleDeleteTest info index resolved2 (card cv)))
     = delete index (tests (card cv))
  /\ ((length (tests (card cv)) <= index)%nat ->
      tests (fst (handleDeleteTest info index resolved2 (card cv))) = tests (card cv)
      /\ writes (snd (handleDeleteTest info index resolved2 (card cv)))
         = [(Project.id (ProjectInfo.core info),
             [Patch.tests_checklist (tests (card cv))])]).
Proof.
  intros Hsaving.
  assert (Hdelete : tests (fst (handleDeleteTest info index resolved2 (card cv)))
                    = delete index (tests (card cv))).
  { unfold handleDeleteTest. rewrite Hsaving.
    cbn [fst tests setIsSaving setTests]. apply filter_not_index_delete. }
  split; [|split; [|split; [done|]]].
  - unfold handleAddTest. rewrite Hsaving. by intros ->.
  - intros Hname. apply String.eqb_neq in Hname.
    unfold handleAddTest. rewrite Hsaving, Hname. cbn [fst card setCard].
    split; [done|]. unfold handleDeleteTest.
    cbn [fst tests isSaving setIsSaving setTests].
    by rewrite filter_not_index_delete, delete_middle, app_nil_r.
  - intros Hge.
    assert (Hsame : delete index (tests (card cv)) = tests (card cv)).
    { rewrite delete_take_drop, take_ge, drop_ge by lia. apply app_nil_r. }
    split; [by rewrite Hdelete|].
    unfold handleDeleteTest. rewrite Hsaving. cbn [snd].
    by rewrite writes_persist, filter_not_index_delete, Hsame.
Qed.

Lemma tests_add_delete_witness :
  tests (fst (handleDeleteTest ongoingInfo 1 true
                (card (fst (handleAddTest trimAscii ongoingInfo true
                              (mkCardView doneTestCard "" " SQL injection" "" "queued"))))))
  = tests doneTestCard
  /\ tests (fst (handleDeleteTest ongoingInfo 5 true doneTestCard)) = tests doneTestCard.
Proof.
  pose proof (tests_add_delete trimAscii ongoingInfo true true 5
                (mkCardView doneTestCard "" " SQL injection" "" "queued") eq_refl)
    as (_ & Hadd & _ & Hbeyond).
  split.
  - apply Hadd. discriminate.
  - apply Hbeyond. cbn. lia.
Defined.

(** X22. Changing the kickoff status on an idle card: when the request
    succeeds the card shows the new status; when it fails the card shows
    the status stored in the project (["queued"] if none is stored),
    whatever it showed before, and alerts the user.  A click on an option
    of the control that succeeds can only lead to one of the four status
    values. *)
Theorem handleKickoffStatusChange_outcome (info : ProjectInfo.t)
    (newStatus : string) (cv : CardView) :
  isSaving (card cv) = false ->
  handleKickoffStatusChange info newStatus true cv
  = (setCard (setIsSaving false (card cv)) (setKickoffStatus newStatus cv),
     [updateProject_kickoff_status (Project.id (ProjectInfo.core info)) newStatus;
      cardEffect onUpdate])
  /\ handleKickoffStatusChange info newStatus false cv
     = (setCard (setIsSaving false (card cv))
          (setKickoffStatus (orString (ProjectInfo.kickoff_status info) "queued") cv),
        [updateProject_kickoff_status (Project.id (ProjectInfo.core info)) newStatus;
         cardEffect (console_error "Error updating kickoff status:");
         cardEffect (alert "Failed to update kickoff status")])
  /\ (ProjectInfo.kickoff_status info = None ->
      kickoffStatus (fst (handleKickoffStatusChange info newStatus false cv)) = "queued")
  /\ (forall opt, opt ∈ KickoffStatus.statusOptions ->
        kickoffStatus (fst (clickKickoffOption info opt true cv))
        ∈ ["ticket_assigned"; "queued"; "in_talks"; "done"]).
Proof.
  intros Hsaving. unfold clickKickoffOption, KickoffStatus.handleStatusChange,
    handleKickoffStatusChange. rewrite Hsaving. cbn [negb default].
  split; [done|]. split; [done|]. split; [by intros ->|].
  intros opt Hopt. cbn [fst kickoffStatus setCard setKickoffStatus].
  unfold KickoffStatus.statusOptions in Hopt.
  repeat (apply elem_of_cons in Hopt as [->|Hopt];
          [apply (bool_decide_unpack _); vm_compute; exact I|]).
  by apply elem_of_nil in Hopt.
Qed.

Lemma handleKickoffStatusChange_outcome_witness :
  kickoffStatus
    (fst (handleKickoffStatusChange (completedInfo 0) "in_talks" false
            (mkCardView reconciledCard "" "" "" "queued"))) = "done"
  /\ kickoffStatus
       (fst (handleKickoffStatusChange ongoingInfo "in_talks" false
               (mkCardView reconciledCard "" "" "" "done"))) = "queued".
Proof.
  split.
  - by rewrite (proj1 (proj2 (handleKickoffStatusChange_outcome (completedInfo 0)
                  "in_talks" (mkCardView reconciledCard "" "" "" "queued") eq_refl))).
  - apply (proj1 (proj2 (proj2 (handleKickoffStatusChange_outcome ongoingInfo
                  "in_talks" (mkCardView reconciledCard "" "" "" "done") eq_refl)))).
    reflexivity.
Defined.

(** X23. Completing and reopening a project on an idle card.  A completion
    that succeeds marks the card completed, closes the dialog and keeps
    the leave days; one that fails leaves the completion flag as it was.
    Reopening asks for confirmation: declined, it does nothing; confirmed
    and successful, it sends status ["ongoing"] with the completion date,
    leave days and business days reset, marks the card not completed and
    zeroes the leave days; confirmed but failed, the card stays completed. *)
Theorem complete_and_reopen (tzOffset : timestamp -> Z) (info : ProjectInfo.t)
    (completedAt now : timestamp) (resolved : bool) (c c1 : Card) :
  isSaving c = false ->
  c1 = fst (handleCompleteProject tzOffset (ProjectInfo.core info)
              completedAt now true c) ->
  (isCompleted c1 = true /\ showCompleteModal c1 = false
   /\ isSaving c1 = false /\ leaveDays c1 = leaveDays c)
  /\ isCompleted (fst (handleCompleteProject tzOffset (ProjectInfo.core info)
                         completedAt now false c)) = isCompleted c
  /\ handleUncompleteProject info false resolved c1 = (c1, [])
  /\ (isCompleted (fst (handleUncompleteProject info true true c1)) = false
      /\ leaveDays (fst (handleUncompleteProject info true true c1)) = 0
      /\ writes (snd (handleUncompleteProject info true true c1))
         = [(Project.id (ProjectInfo.core info),
             [Patch.status "ongoing";
              Patch.completed_date None;
              Patch.leave_days 0;
              Patch.business_days_worked 0])])
  /\ isCompleted (fst (handleUncompleteProject info true false c1)) = true.
Proof.
  intros Hsaving ->. unfold handleCompleteProject, handleUncompleteProject.
  rewrite Hsaving. cbn. repeat split.
Qed.

Lemma complete_and_reopen_witness :
  isCompleted
    (fst (handleUncompleteProject ongoingInfo true true
            (fst (handleCompleteProject utc swappedProject friday friday true
                    reconciledCard)))) = false.
Proof.
  apply (complete_and_reopen utc ongoingInfo friday friday true reconciledCard _
           eq_refl eq_refl).
Defined.

(** X24. The cells a handler updates on success already hold what the
    first effect derives from the refreshed project: once the project
    carries the completion date and leave days of a successful completion,
    the reset values of a successful reopening, or the status of a
    successful kickoff change, running the effect changes none of them.
    The same holds right after mounting. *)
Theorem syncEffect_agrees_with_handlers (tzOffset : timestamp -> Z)
    (info info' : ProjectInfo.t) (completedAt now : timestamp)
    (newStatus : string) (cv : CardView) :
  isSaving (card cv) = false ->
  syncEffect info (mountView info) = mountView info
  /\ (ProjectInfo.completed_date info' = Some completedAt ->
      ProjectInfo.leave_days info' = Some (leaveDays (card cv)) ->
      card (syncEffect info'
              (setCard (fst (handleCompleteProject tzOffset (ProjectInfo.core info)
                               completedAt now true (card cv))) cv))
      = fst (handleCompleteProject tzOffset (ProjectInfo.core info)
               completedAt now true (card cv)))
  /\ (ProjectInfo.completed_date info' = None ->
      ProjectInfo.leave_days info' = Some 0 ->
      card (syncEffect info'
              (setCard (fst (handleUncompleteProject info true true (card cv))) cv))
      = fst (handleUncompleteProject info true true (card cv)))
  /\ (ProjectInfo.kickoff_status info' = Some newStatus ->
      newStatus <> "" ->
      kickoffStatus (syncEffect info'
                       (fst (handleKickoffStatusChange info newStatus true cv)))
      = kickoffStatus (fst (handleKickoffStatusChange info newStatus true cv))).
Proof.
  intros Hsaving. split; [done|].
  unfold syncEffect, handleCompleteProject, handleUncompleteProject,
    handleKickoffStatusChange. rewrite Hsaving. cbn [negb].
  split; [|split].
  - by intros -> ->.
  - by intros -> ->.
  - intros -> Hne. cbn. by destruct newStatus.
Qed.

Lemma syncEffect_agrees_with_handlers_witness :
  card (syncEffect (completedInfo 1)
          (setCard (fst (handleCompleteProject utc swappedProject friday friday true
                           reconciledCard))
                   (mkCardView reconciledCard "" "" "" "done")))
  = fst (handleCompleteProject utc swappedProject friday friday true reconciledCard).
Proof.
  apply (proj1 (proj2 (syncEffect_agrees_with_handlers utc ongoingInfo (completedInfo 1)
                  friday friday "done" (mkCardView reconciledCard "" "" "" "done")
                  eq_refl)));
    reflexivity.
Defined.

(** X25. Saving the notes is not gated by [isSaving]: on a card that is in
    the middle of another save, [handleSaveNotes] still sends the notes as
    typed and ends with the saving flag cleared, and it never touches the
    stages, the tests or the typed notes. *)
Theorem handleSaveNotes_not_gated (info : ProjectInfo.t) (resolved : bool)
    (cv : CardView) :
  isSaving (card (fst (handleSaveNotes info resolved cv))) = false
  /\ (exists rest,
        snd (handleSaveNotes info resolved cv)
        = updateProject_notes (Project.id (ProjectInfo.core info)) (notes cv) :: rest)
  /\ pentestStages (card (fst (handleSaveNotes info resolved cv)))
     = pentestStages (card cv)
  /\ tests (card (fst (handleSaveNotes info resolved cv))) = tests (card cv)
  /\ notes (fst (handleSaveNotes info resolved cv)) = notes cv
  /\ (isSaving (card cv) = false ->
      fst (handleSaveNotes info resolved cv) = cv).
Proof.
  unfold handleSaveNotes. cbn. repeat split; [by eexists|].
  intros Hsaving. destruct cv as [c n t s k]. destruct c. cbn in *. by subst.
Qed.

Lemma handleSaveNotes_not_gated_witness :
  fst (handleSaveNotes ongoingInfo true (mkCardView reconciledCard "scope agreed" "" "" "queued"))
  = mkCardView reconciledCard "scope agreed" "" "" "queued".
Proof.
  apply (proj2 (proj2 (proj2 (proj2 (proj2
    (handleSaveNotes_not_gated ongoingInfo true
       (mkCardView reconciledCard "scope agreed" "" "" "queued"))))))).
  reflexivity.
Defined.

(** ** The document card *)

(** X26. The technologies of a document card are all accounted for: the
    card shows at most five of them, the first ones in order, and the
    [+N] badge counts exactly the others; there is no badge up to five
    technologies and no block at all without any. *)
Theorem technologiesBlock_accounts_for_all (technologies : list string) :
  (technologies = [] -> technologiesBlock (Some technologies) = None)
  /\ (technologies <> [] ->
      exists shown badge,
        technologiesBlock (Some technologies) = Some (shown, badge)
        /\ shown = take 5 technologies
        /\ (length shown <= 5)%nat
        /\ len shown + default 0 badge = len technologies
        /\ (badge = None <-> (length technologies <= 5)%nat)).
Proof.
  split; [by intros ->|]. intros Hne. unfold technologiesBlock.
  assert (Hpos : (0 <? len technologies) = true).
  { apply Z.ltb_lt. destruct technologies; [done|]. unfold len. cbn. lia. }
  rewrite Hpos. eexists _, _. split; [reflexivity|]. split; [done|].
  unfold len. rewrite length_take.
  destruct (Z.ltb_spec 5 (Z.of_nat (length technologies))) as [Hlt|Hle];
    unfold default; cbn [from_option id].
  - split; [lia|]. split; [lia|]. split; [done|lia].
  - split; [lia|]. split; [lia|]. split; [lia|done].
Qed.

Lemma technologiesBlock_accounts_for_all_witness :
  exists shown badge,
    technologiesBlock (Some ["React"; "Vite"; "FastAPI"; "Docker"; "Nginx"; "Redis"; "JWT"])
    = Some (shown, badge)
    /\ shown = ["React"; "Vite"; "FastAPI"; "Docker"; "Nginx"]
    /\ badge = Some 2.
Proof.
  destruct (proj2 (technologiesBlock_accounts_for_all
                     ["React"; "Vite"; "FastAPI"; "Docker"; "Nginx"; "Redis"; "JWT"])
              ltac:(discriminate)) as (shown & badge & Hblock & -> & _).
  exists (take 5 ["React"; "Vite"; "FastAPI"; "Docker"; "Nginx"; "Redis"; "JWT"]), badge.
  split; [done|]. split; [done|]. vm_compute in Hblock. congruence.
Defined.
